(** * kalman.py: a scalar Kalman filter with no process noise

    Verification of [src/kalman.py].  The program draws a noisy
    measurement sequence [z] of a constant signal [x = 0] and runs the
    scalar predict/update recursion over it, filling the two arrays
    [x_estimate] and [error_estimate] from left to right.

    Numbers.  The program computes on IEEE binary64 values ([np.float64]).
    We idealise them: a finite value is an exact rational (no rounding, no
    overflow), and the two infinities and NaN are kept, because numpy's
    division does not raise on a zero divisor but returns them.  Zeros are
    unsigned (a zero divisor counts as [+0]).  Statements that hold only
    without rounding or overflow say so; the module [Binary64] repeats the
    recursion over binary64 itself, to evaluate the code's own arithmetic
    on concrete inputs. *)

From Stdlib Require Import QArith Qabs Qfield Lia Lqa Sorted.
From Stdlib Require PrimFloat FloatOps SpecFloat.
From stdpp Require Import base list.

Set Warnings "-inexact-float".

#[local] Open Scope Q_scope.

(** ** Idealised floats *)

Inductive num : Type :=
  | Fin (q : Q)        (** a finite value *)
  | Inf (neg : bool)   (** [+inf] when [neg = false], [-inf] otherwise *)
  | NaN.

Declare Scope num_scope.
Delimit Scope num_scope with num.
Bind Scope num_scope with num.

(** The sign of a non-zero rational, as the sign of an infinity. *)
Definition inf_of_sign (q : Q) (neg : bool) : num :=
  match q ?= 0 with
  | Eq => NaN
  | Lt => Inf (negb neg)
  | Gt => Inf neg
  end.

Definition nopp (a : num) : num :=
  match a with
  | Fin q => Fin (- q)
  | Inf s => Inf (negb s)
  | NaN => NaN
  end.

(** Arithmetic.  On finite values the operations are exact (no rounding,
    no overflow, no underflow); on the special values they follow
    IEEE 754. *)
Definition nadd (a b : num) : num :=
  match a, b with
  | Fin p, Fin q => Fin (p + q)
  | Fin _, Inf s | Inf s, Fin _ => Inf s
  | Inf s, Inf t => if Bool.eqb s t then Inf s else NaN
  | _, _ => NaN
  end.

Definition nsub (a b : num) : num := nadd a (nopp b).

Definition nmul (a b : num) : num :=
  match a, b with
  | Fin p, Fin q => Fin (p * q)
  | Fin p, Inf s | Inf s, Fin p => inf_of_sign p s
  | Inf s, Inf t => Inf (xorb s t)
  | _, _ => NaN
  end.

(** numpy's true division: [0/0] is NaN, [x/0] is an infinity with the
    sign of [x]; neither raises. *)
Definition ndiv (a b : num) : num :=
  match a, b with
  | Fin p, Fin q => if Qeq_bool q 0 then inf_of_sign p false else Fin (p / q)
  | Fin _, Inf _ => Fin 0
  | Inf s, Fin q => match q ?= 0 with Lt => Inf (negb s) | _ => Inf s end
  | _, _ => NaN
  end.

(** Comparisons, as Python evaluates them: every comparison with NaN is
    [False]. *)
Definition nleb (a b : num) : bool :=
  match a, b with
  | Fin p, Fin q => Qle_bool p q
  | Inf true, (Fin _ | Inf _) => true
  | Fin _, Inf false => true
  | Inf false, Inf false => true
  | _, _ => false
  end.

Definition nltb (a b : num) : bool :=
  match a, b with
  | Fin p, Fin q => negb (Qle_bool q p)
  | Inf true, (Fin _ | Inf false) => true
  | Fin _, Inf false => true
  | _, _ => false
  end.

Definition nle (a b : num) : Prop := nleb a b = true.
Definition nlt (a b : num) : Prop := nltb a b = true.

Infix "+" := nadd : num_scope.
Infix "-" := nsub : num_scope.
Infix "*" := nmul : num_scope.
Infix "/" := ndiv : num_scope.
Infix "<=" := nle : num_scope.
Infix "<" := nlt : num_scope.

(** Equality of values: finite values are compared as rationals. *)
Definition num_eq (a b : num) : Prop :=
  match a, b with
  | Fin p, Fin q => p == q
  | Inf s, Inf t => s = t
  | NaN, NaN => True
  | _, _ => False
  end.

(** ** The four update functions of the source *)

Definition _calculate_model_variance (last_error_estimate process_variance : num) : num :=
  (last_error_estimate + process_variance)%num.

Definition _calculate_kalman_gain (model_variance measurement_variance : num) : num :=
  (model_variance / (model_variance + measurement_variance))%num.

Definition _calculate_x_estimate (last_x_estimate kalman_gain measurement : num) : num :=
  (last_x_estimate + kalman_gain * (measurement - last_x_estimate))%num.

Definition _calculate_error_estimate (kalman_gain model_variance : num) : num :=
  ((Fin 1 - kalman_gain) * model_variance)%num.

(** ** Arrays, local variables and effects

    [kalman_filter] works on four numpy arrays held in local variables and
    written in place by subscript.  The store holds the four arrays and, as
    a ghost record of the run, the sequence of subscript reads and writes
    in program order; the log never influences a value. *)

Inductive array : Type := arr_x | arr_z | arr_x_estimate | arr_error_estimate.

#[global] Instance array_eq_dec : EqDecision array.
Proof. solve_decision. Defined.

Inductive event : Type :=
  | Read (a : array) (i : nat)
  | Write (a : array) (i : nat).

Record store : Type := mkStore {
  v_x : list num;
  v_z : list num;
  v_x_estimate : list num;
  v_error_estimate : list num;
  trace : list event
}.

Definition sel (s : store) (a : array) : list num :=
  match a with
  | arr_x => v_x s
  | arr_z => v_z s
  | arr_x_estimate => v_x_estimate s
  | arr_error_estimate => v_error_estimate s
  end.

Definition upd (s : store) (a : array) (l : list num) : store :=
  match a with
  | arr_x => mkStore l (v_z s) (v_x_estimate s) (v_error_estimate s) (trace s)
  | arr_z => mkStore (v_x s) l (v_x_estimate s) (v_error_estimate s) (trace s)
  | arr_x_estimate => mkStore (v_x s) (v_z s) l (v_error_estimate s) (trace s)
  | arr_error_estimate => mkStore (v_x s) (v_z s) (v_x_estimate s) l (trace s)
  end.

Definition log (e : event) (s : store) : store :=
  mkStore (v_x s) (v_z s) (v_x_estimate s) (v_error_estimate s) (trace s ++ [e]).

Definition empty_store : store := mkStore [] [] [] [] [].

(** The exceptions the function can raise. *)
Inductive exn : Type := ValueError | IndexError.

(** State and exceptions: a raised exception abandons the store, as the
    arrays are local to the call. *)
Definition M (A : Type) : Type := store -> exn + (A * store).

Definition ret {A} (a : A) : M A := fun s => inr (a, s).

Definition raise {A} (e : exn) : M A := fun _ => inl e.

Definition bind {A B} (m : M A) (f : A -> M B) : M B :=
  fun s => match m s with
           | inl e => inl e
           | inr (a, s') => f a s'
           end.

Notation "x <- m ;; k" := (bind m (fun x => k))
  (at level 100, m at next level, right associativity).
Notation "m ;; k" := (bind m (fun _ => k))
  (at level 100, right associativity).

(** [a[i]] as an expression, for an index [i >= 0]. *)
Definition get_item (a : array) (i : nat) : M num :=
  fun s => match sel s a !! i with
           | Some v => inr (v, log (Read a i) s)
           | None => inl IndexError
           end.

(** [a[i] = v], for an index [i >= 0]: out of range raises, where stdpp's
    insert would do nothing. *)
Definition set_item (a : array) (i : nat) (v : num) : M unit :=
  fun s => if decide (i < length (sel s a))%nat
           then inr (tt, log (Write a i) (upd s a (<[i:=v]> (sel s a))))
           else inl IndexError.

(** Binding a local variable to a fresh array. *)
Definition assign (a : array) (l : list num) : M unit :=
  fun s => inr (tt, upd s a l).

(** [np.zeros(n)]: a negative dimension is refused. *)
Definition np_zeros (n : Z) : M (list num) :=
  if (n <? 0)%Z then raise ValueError else ret (replicate (Z.to_nat n) (Fin 0)).

(** [np.random.normal(0, np.sqrt(measurement_variance), size=n)] is the one
    source of randomness.  The model receives the samples the generator
    returned as the stream [noise] and takes its first [n] elements; how
    numpy derives them from the scale is not modelled. *)
Definition np_random_normal (noise : nat -> num) (n : Z) : list num :=
  map noise (seq 0 (Z.to_nat n)).

(** [a += b] on arrays: element-wise, in place. *)
Definition iadd (a b : array) : M unit :=
  fun s => inr (tt, upd s a (zip_with nadd (sel s a) (sel s b))).

(** [range(a, b)] and the [for] statement over it. *)
Definition range (a b : nat) : list nat := seq a (b - a).

Fixpoint for_each (ks : list nat) (body : nat -> M unit) : M unit :=
  match ks with
  | [] => ret tt
  | k :: ks' => body k ;; for_each ks' body
  end.

(** ** The filter *)

Section Filter.

(** [kalman_filter] fixes these as local constants; the specification
    ranges over them, so the model takes them as parameters. *)
Variables (process_variance measurement_variance : num).

(** One iteration of the loop, lines 84-102.  [k] comes from
    [range(1, n_of_points)], so [k - 1] is a non-negative index. *)
Definition loop_body (k : nat) : M unit :=
  last_error_estimate <- get_item arr_error_estimate (k - 1) ;;
  let model_variance :=
    _calculate_model_variance last_error_estimate process_variance in
  let kalman_gain :=
    _calculate_kalman_gain model_variance measurement_variance in
  last_x_estimate <- get_item arr_x_estimate (k - 1) ;;
  measurement <- get_item arr_z k ;;
  set_item arr_x_estimate k
    (_calculate_x_estimate last_x_estimate kalman_gain measurement) ;;
  set_item arr_error_estimate k
    (_calculate_error_estimate kalman_gain model_variance).

(** The loop, line 83. *)
Definition recursion (n_of_points : nat) : M unit :=
  for_each (range 1 n_of_points) loop_body.

(** The body of [kalman_filter], with the step count and the two initial
    guesses as parameters too. *)
Definition kalman_filter_body (n_of_points : Z) (x0 p0 : num)
    (noise : nat -> num) : M unit :=
  zeros <- np_zeros n_of_points ;;
  assign arr_x zeros ;;
  assign arr_z (np_random_normal noise n_of_points) ;;
  iadd arr_z arr_x ;;
  zeros <- np_zeros n_of_points ;;
  assign arr_x_estimate zeros ;;
  zeros <- np_zeros n_of_points ;;
  assign arr_error_estimate zeros ;;
  set_item arr_x_estimate 0 x0 ;;
  set_item arr_error_estimate 0 p0 ;;
  recursion (Z.to_nat n_of_points).

End Filter.

(** What the function returns: [x, x_estimate, z, error_estimate]. *)
Definition outputs : Type := list num * list num * list num * list num.

Definition returned (s : store) : outputs :=
  (v_x s, v_x_estimate s, v_z s, v_error_estimate s).

Definition kalman_filter_with (n_of_points : Z)
    (process_variance measurement_variance x0 p0 : num)
    (noise : nat -> num) : exn + outputs :=
  match kalman_filter_body process_variance measurement_variance
          n_of_points x0 p0 noise empty_store with
  | inl e => inl e
  | inr (_, s) => inr (returned s)
  end.

(** The subscript accesses of a run, for the frame properties. *)
Definition kalman_filter_trace (n_of_points : Z)
    (process_variance measurement_variance x0 p0 : num)
    (noise : nat -> num) : exn + list event :=
  match kalman_filter_body process_variance measurement_variance
          n_of_points x0 p0 noise empty_store with
  | inl e => inl e
  | inr (_, s) => inr (trace s)
  end.

(** [kalman_filter()] as the source has it: 500 points, measurement
    variance 0.1, no process noise, initial guesses 0 and 1.0. *)
Definition kalman_filter (noise : nat -> num) : exn + outputs :=
  kalman_filter_with 500 (Fin 0) (Fin 0.1) (Fin 0) (Fin 1) noise.

(** ** The recursion as a function of the previous pair

    The loop carries no state but the arrays; read functionally, iteration
    [k] maps the pair [(x_estimate[k-1], error_estimate[k-1])] and the
    measurement [z[k]] to the pair at [k]. *)

Definition step (process_variance measurement_variance : num)
    (prev : num * num) (measurement : num) : num * num :=
  let model_variance := _calculate_model_variance (snd prev) process_variance in
  let kalman_gain := _calculate_kalman_gain model_variance measurement_variance in
  (_calculate_x_estimate (fst prev) kalman_gain measurement,
   _calculate_error_estimate kalman_gain model_variance).

Fixpoint estimate_at (process_variance measurement_variance x0 p0 : num)
    (zs : list num) (k : nat) : num * num :=
  match k with
  | O => (x0, p0)
  | S j =>
      step process_variance measurement_variance
        (estimate_at process_variance measurement_variance x0 p0 zs j)
        (default NaN (zs !! S j))
  end.

(** The error estimate alone, over the rationals, where no divisor
    vanishes. *)
Definition next_error (q r p : Q) : Q :=
  let m := p + q in (1 - m / (m + r)) * m.

Fixpoint error_at (q r p0 : Q) (k : nat) : Q :=
  match k with
  | O => p0
  | S j => next_error q r (error_at q r p0 j)
  end.

(** The closed form of the error estimate claimed for no process noise. *)
Definition P_closed (p0 r : Q) (k : nat) : Q :=
  p0 * r / (inject_Z (Z.of_nat k) * p0 + r).

(** The measurement sequence the filter runs on: the samples plus the
    truth signal, which is zero. *)
Definition measurements (noise : nat -> num) (n : nat) : list num :=
  zip_with nadd (map noise (seq 0 n)) (replicate n (Fin 0)).

(** The accesses of iteration [k], in program order. *)
Definition iteration_events (k : nat) : list event :=
  [Read arr_error_estimate (k - 1); Read arr_x_estimate (k - 1);
   Read arr_z k; Write arr_x_estimate k; Write arr_error_estimate k].

(** The indices of array [a] written along a trace, in order. *)
Definition writes_to (a : array) (tr : list event) : list nat :=
  flat_map (fun e => match e with
                     | Write b i => if decide (a = b) then [i] else []
                     | Read _ _ => []
                     end) tr.

Definition reads_of (tr : list event) : list (array * nat) :=
  flat_map (fun e => match e with
                     | Read b i => [(b, i)]
                     | Write _ _ => []
                     end) tr.

(** A value agrees with a decimal printed to four places: it is within
    half a unit of the fourth place. *)
Definition approx4 (v : num) (d : Q) : Prop :=
  match v with
  | Fin q => Qabs (q - d) <= 0.00005
  | _ => False
  end.

Definition sample (l : list Q) : nat -> num :=
  fun i => Fin (nth i l 0).

(** The measurement sequence of the golden-value test. *)
Definition golden_z : nat -> num := sample [0; 1; -1; 1#2].


(** ** The state estimate over the rationals *)

(** The gain of the step that follows the error estimate [e]. *)
Definition gain_after (q r e : Q) : Q := (e + q) / (e + q + r).

(** The state estimate on finite samples [f], where no divisor vanishes;
    the measurement at [k] is the sample plus the zero truth signal. *)
Fixpoint x_at (q r x0 p0 : Q) (f : nat -> Q) (k : nat) : Q :=
  match k with
  | O => x0
  | S j =>
      let x := x_at q r x0 p0 f j in
      x + gain_after q r (error_at q r p0 j) * ((f (S j) + 0) - x)
  end.

(** ** Plotting

    [plot_everything] hands arrays to matplotlib.  The model keeps what it
    computes and the order in which it draws: the lines and the three
    confidence bands with their data, and the axis limits.  Titles, labels,
    colours and the rendering itself are left out. *)

Inductive artist : Type :=
  | Line (ys : list num)                              (** [ax.plot(ys, ...)] *)
  | Band (xs : list nat) (y1 y2 : list num).  (** [ax.fill_between(xs, y1, y2)] *)

Record figure : Type := mkFigure {
  artists : list artist;
  xlim : nat * nat;
  ylim : Q * Q
}.

(** An element-wise operation on two one-dimensional arrays, with numpy's
    broadcasting: equal lengths, or one operand of length one. *)
Definition broadcast (f : num -> num -> num) (a b : list num) : exn + list num :=
  if decide (length a = length b) then inr (zip_with f a b)
  else match a, b with
       | [u], _ => inr (map (f u) b)
       | _, [v] => inr (map (fun u => f u v) a)
       | _, _ => inl ValueError
       end.

Definition ebind {A B} (m : exn + A) (f : A -> exn + B) : exn + B :=
  match m with
  | inl e => inl e
  | inr a => f a
  end.

(** One-dimensional arrays of these lengths can be broadcast together:
    any two lengths are equal or one of them is 1. *)
Definition broadcastable (lens : list nat) : bool :=
  forallb (fun a =>
    forallb (fun b => (a =? 1)%nat || (b =? 1)%nat || (a =? b)%nat) lens) lens.

(** [ax.fill_between(xs, y1, y2)]: matplotlib broadcasts the three arrays
    together and raises [ValueError] when it cannot.  The band keeps the
    arrays as they were passed. *)
Definition fill_between (xs : list nat) (y1 y2 : list num) : exn + artist :=
  if broadcastable [length xs; length y1; length y2]
  then inr (Band xs y1 y2)
  else inl ValueError.

Section Plot.

(** [np.sqrt] on one element.  Square roots are not rational, so the
    function is a parameter of the model. *)
Variable np_sqrt : num -> num.

Definition plot_everything (x x_hat z error_estimate : list num) : exn + figure :=
  let sigma := map np_sqrt error_estimate in
  let two_sigma := map (nmul (Fin 2)) sigma in
  let three_sigma := map (nmul (Fin 3)) sigma in
  ebind (broadcast nadd x_hat three_sigma) (fun upper3 =>
  ebind (broadcast nsub x_hat three_sigma) (fun lower3 =>
  ebind (fill_between (range 0 (length x)) upper3 lower3) (fun band3 =>
  ebind (broadcast nadd x_hat two_sigma) (fun upper2 =>
  ebind (broadcast nsub x_hat two_sigma) (fun lower2 =>
  ebind (fill_between (range 0 (length x)) upper2 lower2) (fun band2 =>
  ebind (broadcast nadd x_hat sigma) (fun upper1 =>
  ebind (broadcast nsub x_hat sigma) (fun lower1 =>
  ebind (fill_between (range 0 (length x)) upper1 lower1) (fun band1 =>
  let lim := 0.2 in
  inr (mkFigure
         [Line z; band3; band2; band1; Line x_hat; Line x]
         (0%nat, length x) (- lim, lim))))))))))).

(** [main], without the final [plt.show()]. *)
Definition main (noise : nat -> num) : exn + figure :=
  ebind (kalman_filter noise) (fun '(x, x_hat, z, error_estimate) =>
  plot_everything x x_hat z error_estimate).

End Plot.

(** A rational stand-in for [np.sqrt], exact on squares of rationals with
    a square denominator, to run the plotting model on. *)
Definition sqrt_floor (v : num) : num :=
  match v with
  | Fin q =>
      if Qle_bool 0 q
      then Fin (Z.sqrt (Qnum q * Zpos (Qden q)) # Qden q)
      else NaN
  | Inf false => Inf false
  | _ => NaN
  end.

(** ** Reading after writing *)

Definition is_output (a : array) : bool :=
  match a with
  | arr_x_estimate | arr_error_estimate => true
  | arr_x | arr_z => false
  end.

(** Every subscript read of an output array along the trace is at an index
    that an earlier subscript write of the trace has filled; [written]
    holds the writes seen so far. *)
Fixpoint reads_initialised (written : list (array * nat)) (tr : list event) : bool :=
  match tr with
  | [] => true
  | Write a i :: tr' => reads_initialised ((a, i) :: written) tr'
  | Read a i :: tr' =>
      (negb (is_output a) || bool_decide ((a, i) ∈ written))
      && reads_initialised written tr'
  end.


(** ** Binary64 replay

    The rational model above leaves rounding and overflow out.  To evaluate
    the code's own arithmetic on concrete inputs, the four update functions
    and the recursion are repeated here over Rocq's primitive binary64
    floats, whose operations are IEEE 754 double precision with rounding to
    nearest, as [np.float64]'s.  The array plumbing of the loop does not
    depend on the arithmetic: the run holds the recursion [estimate_at] at
    every index, and [Binary64.estimate_at] is that recursion over
    binary64, on the measurement sequence [z]. *)

Module Binary64.

Import PrimFloat.
#[local] Open Scope float_scope.

Definition _calculate_model_variance (last_error_estimate process_variance : float) : float :=
  last_error_estimate + process_variance.

Definition _calculate_kalman_gain (model_variance measurement_variance : float) : float :=
  model_variance / (model_variance + measurement_variance).

Definition _calculate_x_estimate (last_x_estimate kalman_gain measurement : float) : float :=
  last_x_estimate + kalman_gain * (measurement - last_x_estimate).

Definition _calculate_error_estimate (kalman_gain model_variance : float) : float :=
  (1 - kalman_gain) * model_variance.

Definition step (process_variance measurement_variance : float)
    (prev : float * float) (measurement : float) : float * float :=
  let model_variance := _calculate_model_variance (snd prev) process_variance in
  let kalman_gain := _calculate_kalman_gain model_variance measurement_variance in
  (_calculate_x_estimate (fst prev) kalman_gain measurement,
   _calculate_error_estimate kalman_gain model_variance).

(** The pair [(x_estimate[k], error_estimate[k])]. *)
Fixpoint estimate_at (process_variance measurement_variance x0 p0 : float)
    (z : nat -> float) (k : nat) : float * float :=
  match k with
  | O => (x0, p0)
  | S j =>
      step process_variance measurement_variance
        (estimate_at process_variance measurement_variance x0 p0 z j)
        (z (S j))
  end.

(** The gain of step [k >= 1]. *)
Definition gain_at (process_variance measurement_variance x0 p0 : float)
    (z : nat -> float) (k : nat) : float :=
  _calculate_kalman_gain
    (_calculate_model_variance
       (snd (estimate_at process_variance measurement_variance x0 p0 z (k - 1)))
       process_variance)
    measurement_variance.

(** The measurement sequence of the golden-value test. *)
Definition golden_z (k : nat) : float := nth k [0; 1; -1; 0.5] 0.

End Binary64.

(** The exact value of a binary64 float (zeros unsigned). *)
Definition num_of_float (x : PrimFloat.float) : num :=
  match FloatOps.Prim2SF x with
  | SpecFloat.S754_zero _ => Fin 0
  | SpecFloat.S754_infinity s => Inf s
  | SpecFloat.S754_nan => NaN
  | SpecFloat.S754_finite s m e =>
      let mag :=
        match e with
        | Z0 => Zpos m # 1
        | Zpos e' => (Zpos m * 2 ^ Zpos e')%Z # 1
        | Zneg e' => Zpos m # (2 ^ e')%positive
        end in
      Fin (if s then - mag else mag)
  end.
(** * Proofs *)

(** ** Idealised floats on finite values *)

Section NumFacts.

Implicit Types p q r m : Q.

Lemma ndiv_Fin p q : ~ q == 0 -> (Fin p / Fin q)%num = Fin (p / q).
Proof.
  intros Hq. unfold ndiv.
  destruct (Qeq_bool q 0) eqn:E; [|reflexivity].
  apply Qeq_bool_iff in E. contradiction.
Qed.

Lemma ndiv_zero_zero : (Fin 0 / Fin 0)%num = NaN.
Proof. reflexivity. Qed.

Lemma nle_Fin p q : (Fin p <= Fin q)%num <-> p <= q.
Proof. unfold nle. simpl. apply Qle_bool_iff. Qed.

Lemma nlt_Fin p q : (Fin p < Fin q)%num <-> p < q.
Proof.
  unfold nlt. simpl. rewrite negb_true_iff.
  split.
  - intros H. apply Qnot_le_lt. intros Hle.
    apply Qle_bool_iff in Hle. congruence.
  - intros H. destruct (Qle_bool q p) eqn:E; [|reflexivity].
    apply Qle_bool_iff in E. exfalso. apply (Qlt_not_le _ _ H E).
Qed.

Lemma nle_NaN_r a : ~ (a <= NaN)%num.
Proof. unfold nle. destruct a as [q|[]|]; simpl; discriminate. Qed.

End NumFacts.

(** ** The gain and the error update over the rationals *)

Section Algebra.

Variables m r : Q.
Hypothesis Hm : 0 <= m.
Hypothesis Hr : 0 <= r.
Hypothesis Hpos : 0 < m + r.

Lemma denominator_nonzero : ~ m + r == 0.
Proof. intros E. rewrite E in Hpos. apply (Qlt_irrefl _ Hpos). Qed.

Lemma gain_bounds : 0 <= m / (m + r) <= 1.
Proof.
  split.
  - apply Qle_shift_div_l; [exact Hpos|]. lra.
  - apply Qle_shift_div_r; [exact Hpos|]. lra.
Qed.

Lemma error_update_eq : (1 - m / (m + r)) * m == m * r / (m + r).
Proof. field. exact denominator_nonzero. Qed.

Lemma error_update_bounds :
  0 <= (1 - m / (m + r)) * m <= m.
Proof.
  destruct gain_bounds as [H0 H1].
  split.
  - apply Qmult_le_0_compat; [lra | exact Hm].
  - apply Qle_trans with (1 * m); [|lra].
    apply Qmult_le_compat_r; [lra | exact Hm].
Qed.

End Algebra.

(** ** One iteration of the loop *)

Section Loop.

Variables pv mv : num.

(** The pair iteration [k] writes, from the pair at [k-1] and [z[k]]. *)
Lemma loop_body_run (s : store) (k : nat) (a p zk : num) :
  v_x_estimate s !! (k - 1)%nat = Some a ->
  v_error_estimate s !! (k - 1)%nat = Some p ->
  v_z s !! k = Some zk ->
  (k < length (v_x_estimate s))%nat ->
  (k < length (v_error_estimate s))%nat ->
  loop_body pv mv k s =
  inr (tt, mkStore (v_x s) (v_z s)
             (<[k := fst (step pv mv (a, p) zk)]> (v_x_estimate s))
             (<[k := snd (step pv mv (a, p) zk)]> (v_error_estimate s))
             (trace s ++ iteration_events k)).
Proof.
  destruct s as [xs zs xe ee tr]; simpl.
  intros Ha Hp Hz Hxe Hee.
  unfold loop_body, bind, get_item, set_item; simpl.
  rewrite Hp; simpl. rewrite Ha; simpl. rewrite Hz; simpl.
  rewrite (decide_True _ _ Hxe); simpl.
  rewrite (decide_True _ _ Hee); simpl.
  unfold log, iteration_events; simpl.
  rewrite <- !app_assoc. reflexivity.
Qed.

(** The state after iterations [k, k+1, ..., k+m-1]. *)
Lemma for_each_run (m : nat) : forall (k : nat) (s : store),
  (1 <= k)%nat ->
  (k + m <= length (v_x_estimate s))%nat ->
  (k + m <= length (v_error_estimate s))%nat ->
  (k + m <= length (v_z s))%nat ->
  exists s',
    for_each (seq k m) (loop_body pv mv) s = inr (tt, s') /\
    v_x s' = v_x s /\ v_z s' = v_z s /\
    length (v_x_estimate s') = length (v_x_estimate s) /\
    length (v_error_estimate s') = length (v_error_estimate s) /\
    trace s' = trace s ++ flat_map iteration_events (seq k m) /\
    (forall j, (j < k \/ k + m <= j)%nat ->
       v_x_estimate s' !! j = v_x_estimate s !! j /\
       v_error_estimate s' !! j = v_error_estimate s !! j) /\
    (forall j, (k <= j < k + m)%nat ->
       exists a p zj,
         v_x_estimate s' !! (j - 1)%nat = Some a /\
         v_error_estimate s' !! (j - 1)%nat = Some p /\
         v_z s !! j = Some zj /\
         v_x_estimate s' !! j = Some (fst (step pv mv (a, p) zj)) /\
         v_error_estimate s' !! j = Some (snd (step pv mv (a, p) zj))).
Proof.
  induction m as [|m IH]; intros k s Hk Hxe Hee Hz.
  - exists s. simpl. rewrite app_nil_r.
    repeat split; try reflexivity. intros j Hj. lia.
  - destruct (lookup_lt_is_Some_2 (v_x_estimate s) (k - 1)) as [a Ha]; [lia|].
    destruct (lookup_lt_is_Some_2 (v_error_estimate s) (k - 1)) as [p Hp]; [lia|].
    destruct (lookup_lt_is_Some_2 (v_z s) k) as [zk Hzk]; [lia|].
    pose proof (loop_body_run s k a p zk Ha Hp Hzk) as Hrun.
    set (s1 := mkStore (v_x s) (v_z s)
             (<[k := fst (step pv mv (a, p) zk)]> (v_x_estimate s))
             (<[k := snd (step pv mv (a, p) zk)]> (v_error_estimate s))
             (trace s ++ iteration_events k)) in *.
    destruct (IH (S k) s1) as (s' & Hs' & Hx & Hzs & Hlx & Hle & Htr & Hframe & Hstep).
    { lia. }
    { simpl. rewrite length_insert. lia. }
    { simpl. rewrite length_insert. lia. }
    { simpl. lia. }
    simpl in Hx, Hzs, Hlx, Hle, Htr.
    rewrite length_insert in Hlx, Hle.
    assert (Hold : forall j, (j < k)%nat ->
              v_x_estimate s' !! j = v_x_estimate s !! j /\
              v_error_estimate s' !! j = v_error_estimate s !! j).
    { intros j Hj. destruct (Hframe j) as [E1 E2]; [lia|].
      simpl in E1, E2.
      rewrite list_lookup_insert_ne in E1 by lia.
      rewrite list_lookup_insert_ne in E2 by lia. now split. }
    exists s'. split.
    { simpl. unfold bind. rewrite Hrun by lia. exact Hs'. }
    do 4 (split; [assumption|]).
    split; [|split].
    + rewrite Htr. simpl. rewrite <- app_assoc. reflexivity.
    + intros j [Hj|Hj]; [apply Hold; lia|].
      destruct (Hframe j) as [E1 E2]; [lia|]. simpl in E1, E2.
      rewrite list_lookup_insert_ne in E1 by lia.
      rewrite list_lookup_insert_ne in E2 by lia. now split.
    + intros j Hj. destruct (decide (j = k)) as [->|Hne].
      * exists a, p, zk.
        destruct (Hframe k) as [E1 E2]; [lia|]. simpl in E1, E2.
        rewrite list_lookup_insert_eq in E1 by lia.
        rewrite list_lookup_insert_eq in E2 by lia.
        destruct (Hold (k - 1)%nat) as [F1 F2]; [lia|].
        rewrite F1, F2. repeat split; assumption.
      * destruct (Hstep j) as (a' & p' & zj & G); [lia|].
        exists a', p', zj. exact G.
Qed.

End Loop.

(** ** The whole function *)

Section Run.

Variables pv mv x0 p0 : num.
Variable noise : nat -> num.

Lemma np_zeros_run (n : Z) (s : store) :
  (0 <= n)%Z -> np_zeros n s = inr (replicate (Z.to_nat n) (Fin 0), s).
Proof.
  intros Hn. unfold np_zeros.
  destruct (n <? 0)%Z eqn:E; [apply Z.ltb_lt in E; lia | reflexivity].
Qed.

Lemma length_measurements (n : nat) : length (measurements noise n) = n.
Proof.
  unfold measurements.
  rewrite length_zip_with, length_map, length_seq, length_replicate. lia.
Qed.

Lemma lookup_measurements (n k : nat) :
  (k < n)%nat -> measurements noise n !! k = Some (noise k + Fin 0)%num.
Proof.
  intros Hk. unfold measurements.
  rewrite lookup_zip_with, list_lookup_fmap, lookup_seq_lt by lia.
  simpl. rewrite lookup_replicate_2 by lia. reflexivity.
Qed.

(** Everything before the loop: allocation and the two initial guesses. *)
Lemma kalman_filter_body_prefix (n : Z) :
  (0 < n)%Z ->
  kalman_filter_body pv mv n x0 p0 noise empty_store =
  recursion pv mv (Z.to_nat n)
    (mkStore (replicate (Z.to_nat n) (Fin 0))
             (measurements noise (Z.to_nat n))
             (<[0%nat := x0]> (replicate (Z.to_nat n) (Fin 0)))
             (<[0%nat := p0]> (replicate (Z.to_nat n) (Fin 0)))
             [Write arr_x_estimate 0; Write arr_error_estimate 0]).
Proof.
  intros Hn. unfold kalman_filter_body, bind.
  rewrite !np_zeros_run by lia. simpl.
  rewrite np_zeros_run by lia. simpl.
  rewrite np_zeros_run by lia. simpl.
  unfold set_item; simpl.
  rewrite decide_True by (rewrite length_replicate; lia). simpl.
  rewrite decide_True by (rewrite length_replicate; lia). simpl.
  reflexivity.
Qed.

(** The run succeeds for every positive step count, and its result
    satisfies the recurrence at every index. *)
Lemma kalman_filter_body_run (n : Z) :
  (0 < n)%Z ->
  exists xe ee,
    kalman_filter_body pv mv n x0 p0 noise empty_store =
    inr (tt, mkStore (replicate (Z.to_nat n) (Fin 0))
               (measurements noise (Z.to_nat n)) xe ee
               ([Write arr_x_estimate 0; Write arr_error_estimate 0] ++
                flat_map iteration_events (seq 1 (Z.to_nat n - 1)))) /\
    length xe = Z.to_nat n /\ length ee = Z.to_nat n /\
    xe !! 0%nat = Some x0 /\ ee !! 0%nat = Some p0 /\
    forall k, (1 <= k < Z.to_nat n)%nat ->
      exists a p zk,
        xe !! (k - 1)%nat = Some a /\ ee !! (k - 1)%nat = Some p /\
        measurements noise (Z.to_nat n) !! k = Some zk /\
        xe !! k = Some (fst (step pv mv (a, p) zk)) /\
        ee !! k = Some (snd (step pv mv (a, p) zk)).
Proof.
  intros Hn. rewrite kalman_filter_body_prefix by exact Hn.
  set (N := Z.to_nat n). assert (HN : (0 < N)%nat) by (subst N; lia).
  set (s0 := mkStore _ _ _ _ _).
  destruct (for_each_run pv mv (N - 1) 1 s0)
    as (s' & Hrun & Hx & Hz & Hlx & Hle & Htr & Hframe & Hstep).
  { lia. }
  { subst s0; simpl. rewrite length_insert, length_replicate. lia. }
  { subst s0; simpl. rewrite length_insert, length_replicate. lia. }
  { subst s0; simpl. rewrite length_measurements. lia. }
  destruct s' as [xs zs xe ee tr]. simpl in *.
  rewrite length_insert, length_replicate in Hlx, Hle.
  exists xe, ee. split.
  { unfold recursion, range. rewrite Hrun. subst. reflexivity. }
  destruct (Hframe 0%nat) as [E1 E2]; [lia|].
  rewrite list_lookup_insert_eq in E1 by (rewrite length_replicate; lia).
  rewrite list_lookup_insert_eq in E2 by (rewrite length_replicate; lia).
  repeat split; try assumption.
  intros k Hk. apply Hstep. lia.
Qed.

(** The arrays hold the functional recursion. *)
Lemma recurrence_estimate_at (zs xe ee : list num) (n : nat) :
  xe !! 0%nat = Some x0 -> ee !! 0%nat = Some p0 ->
  (forall k, (1 <= k < n)%nat ->
     exists a p zk,
       xe !! (k - 1)%nat = Some a /\ ee !! (k - 1)%nat = Some p /\
       zs !! k = Some zk /\
       xe !! k = Some (fst (step pv mv (a, p) zk)) /\
       ee !! k = Some (snd (step pv mv (a, p) zk))) ->
  forall k, (k < n)%nat ->
    xe !! k = Some (fst (estimate_at pv mv x0 p0 zs k)) /\
    ee !! k = Some (snd (estimate_at pv mv x0 p0 zs k)).
Proof.
  intros Hx0 Hp0 Hrec k. induction k as [|k IH]; intros Hk.
  - simpl. now split.
  - destruct IH as [IHx IHp]; [lia|].
    destruct (Hrec (S k)) as (a & p & zk & Ha & Hp & Hz & Hxe & Hee); [lia|].
    replace (S k - 1)%nat with k in Ha, Hp by lia.
    rewrite IHx in Ha. rewrite IHp in Hp.
    injection Ha as <-. injection Hp as <-.
    simpl. rewrite Hz. simpl.
    rewrite <- surjective_pairing in Hxe, Hee. now split.
Qed.

End Run.

(** ** The error estimate over the rationals *)

#[global] Instance next_error_proper :
  Proper (Qeq ==> Qeq ==> Qeq ==> Qeq) next_error.
Proof.
  intros q q' Hq r r' Hr p p' Hp. unfold next_error.
  rewrite Hq, Hr, Hp. reflexivity.
Qed.

Lemma inject_nat_succ (k : nat) :
  inject_Z (Z.of_nat (S k)) == inject_Z (Z.of_nat k) + 1.
Proof. rewrite Nat2Z.inj_succ, <- Z.add_1_r, inject_Z_plus. reflexivity. Qed.

Lemma inject_nat_nonneg (k : nat) : 0 <= inject_Z (Z.of_nat k).
Proof.
  change 0 with (inject_Z 0). rewrite <- Zle_Qle. lia.
Qed.

Lemma inject_nat_lt (j k : nat) :
  (j < k)%nat -> inject_Z (Z.of_nat j) < inject_Z (Z.of_nat k).
Proof. intros H. rewrite <- Zlt_Qlt. lia. Qed.

(** Every rational is below some natural number. *)
Lemma Q_below_nat (q : Q) : exists k : nat, q < inject_Z (Z.of_nat k).
Proof.
  destruct q as [a b].
  exists (Z.to_nat (Z.max a 0 + 1)).
  unfold Qlt, inject_Z; simpl.
  rewrite Z2Nat.id by lia. nia.
Qed.

Section ErrorSequence.

Variables q r p0 : Q.
Hypothesis Hq : 0 <= q.
Hypothesis Hr : 0 <= r.
Hypothesis Hp0 : 0 <= p0.
Hypothesis Hqr : 0 < q + r.

Lemma next_error_bounds (e : Q) :
  0 <= e -> 0 <= next_error q r e <= e + q.
Proof.
  intros He. unfold next_error.
  apply error_update_bounds; lra.
Qed.

Lemma error_at_nonneg (k : nat) : 0 <= error_at q r p0 k.
Proof.
  induction k as [|k IH]; simpl; [exact Hp0|].
  now apply next_error_bounds.
Qed.

(** On a finite non-negative error estimate the update stays finite. *)
Lemma step_error (a zk : num) (e : Q) :
  0 <= e ->
  snd (step (Fin q) (Fin r) (a, Fin e) zk) = Fin (next_error q r e).
Proof.
  intros He. unfold step, _calculate_error_estimate, _calculate_kalman_gain,
    _calculate_model_variance. cbn [snd fst nadd].
  rewrite ndiv_Fin; [reflexivity|].
  apply denominator_nonzero. lra.
Qed.

Lemma step_gain (e : Q) :
  0 <= e ->
  _calculate_kalman_gain (_calculate_model_variance (Fin e) (Fin q)) (Fin r)
  = Fin ((e + q) / (e + q + r)).
Proof.
  intros He. unfold _calculate_kalman_gain, _calculate_model_variance.
  cbn [nadd]. apply ndiv_Fin. apply denominator_nonzero. lra.
Qed.

Lemma snd_estimate_at (x0 : num) (zs : list num) (k : nat) :
  snd (estimate_at (Fin q) (Fin r) x0 (Fin p0) zs k)
  = Fin (error_at q r p0 k).
Proof.
  induction k as [|k IH]; [reflexivity|].
  simpl estimate_at.
  rewrite (surjective_pairing (estimate_at _ _ _ _ _ k)), IH.
  rewrite step_error by apply error_at_nonneg. reflexivity.
Qed.

End ErrorSequence.

Section NoProcessNoise.

Variables r p0 : Q.
Hypothesis Hr : 0 < r.
Hypothesis Hp0 : 0 <= p0.

Lemma closed_denominator_pos (k : nat) :
  0 < inject_Z (Z.of_nat k) * p0 + r.
Proof.
  pose proof (inject_nat_nonneg k) as Hk.
  pose proof (Qmult_le_0_compat _ _ Hk Hp0). lra.
Qed.

Lemma P_closed_nonneg (k : nat) : 0 <= P_closed p0 r k.
Proof.
  unfold P_closed. apply Qle_shift_div_l.
  - apply closed_denominator_pos.
  - pose proof (Qmult_le_0_compat _ _ Hp0 (Qlt_le_weak _ _ Hr)). lra.
Qed.

Lemma next_error_closed (k : nat) :
  next_error 0 r (P_closed p0 r k) == P_closed p0 r (S k).
Proof.
  pose proof (closed_denominator_pos k) as Hk.
  pose proof (closed_denominator_pos (S k)) as HSk.
  pose proof (P_closed_nonneg k) as Hc.
  unfold next_error, P_closed in *.
  rewrite inject_nat_succ in *.
  set (n := inject_Z (Z.of_nat k)) in *.
  field. repeat split; try lra.
  intros E.
  assert (0 < p0 * r + (n * p0 + r) * r).
  { pose proof (Qmult_le_0_compat _ _ Hp0 (Qlt_le_weak _ _ Hr)).
    pose proof (Qmult_lt_0_compat _ _ Hk Hr). lra. }
  lra.
Qed.

Lemma error_at_closed (k : nat) : error_at 0 r p0 k == P_closed p0 r k.
Proof.
  induction k as [|k IH].
  - simpl. unfold P_closed. simpl. field. lra.
  - simpl. rewrite IH. apply next_error_closed.
Qed.

Lemma error_at_decreasing (k : nat) :
  error_at 0 r p0 (S k) <= error_at 0 r p0 k.
Proof.
  simpl.
  destruct (next_error_bounds 0 r (Qle_refl 0) (Qlt_le_weak _ _ Hr)
              ltac:(lra) (error_at 0 r p0 k)) as [_ H].
  - apply error_at_nonneg; lra.
  - lra.
Qed.

Lemma P_closed_strictly_decreasing (j k : nat) :
  0 < p0 -> (j < k)%nat -> P_closed p0 r k < P_closed p0 r j.
Proof.
  intros Hp Hjk. unfold P_closed.
  pose proof (closed_denominator_pos j) as Hj.
  pose proof (closed_denominator_pos k) as Hk.
  pose proof (inject_nat_lt j k Hjk) as Hlt.
  unfold Qdiv. apply Qmult_lt_l.
  - apply Qmult_lt_0_compat; assumption.
  - apply -> Qinv_lt_contravar; [|assumption|assumption].
    pose proof (Qmult_lt_compat_r _ _ _ Hp Hlt). lra.
Qed.

Lemma P_closed_below (eps : Q) :
  0 < eps ->
  exists k0 : nat, forall k, (k0 <= k)%nat -> P_closed p0 r k < eps.
Proof.
  intros Heps.
  destruct (Q_below_nat (r / eps)) as [k0 Hk0].
  assert (Hreps : r < inject_Z (Z.of_nat k0) * eps).
  { assert (E : r == r / eps * eps) by (field; lra).
    rewrite E at 1. apply Qmult_lt_compat_r; assumption. }
  exists k0. intros k Hk.
  assert (Hle : inject_Z (Z.of_nat k0) <= inject_Z (Z.of_nat k))
    by (rewrite <- Zle_Qle; lia).
  unfold P_closed. apply Qlt_shift_div_r; [apply closed_denominator_pos|].
  set (K := inject_Z (Z.of_nat k)) in *.
  set (K0 := inject_Z (Z.of_nat k0)) in *.
  assert (H1 : K0 * eps <= K * eps)
    by (apply Qmult_le_compat_r; [assumption | lra]).
  assert (H2 : 0 <= p0 * (K * eps - r))
    by (apply Qmult_le_0_compat; lra).
  assert (H3 : 0 < eps * r) by (apply Qmult_lt_0_compat; assumption).
  lra.
Qed.

Lemma error_at_inverse (k : nat) :
  0 < p0 ->
  / error_at 0 r p0 k == / p0 + inject_Z (Z.of_nat k) / r.
Proof.
  intros Hp. rewrite error_at_closed. unfold P_closed.
  pose proof (closed_denominator_pos k).
  field. repeat split; lra.
Qed.

End NoProcessNoise.

(** ** What [kalman_filter_with] returns *)

Lemma kalman_filter_with_run (n : Z) (pv mv x0 p0 : num) (noise : nat -> num) :
  (0 < n)%Z ->
  exists xe ee,
    kalman_filter_with n pv mv x0 p0 noise =
      inr (replicate (Z.to_nat n) (Fin 0), xe,
           measurements noise (Z.to_nat n), ee) /\
    kalman_filter_trace n pv mv x0 p0 noise =
      inr ([Write arr_x_estimate 0; Write arr_error_estimate 0] ++
           flat_map iteration_events (seq 1 (Z.to_nat n - 1))) /\
    length xe = Z.to_nat n /\ length ee = Z.to_nat n /\
    (forall k, (1 <= k < Z.to_nat n)%nat ->
       exists a p zk,
         xe !! (k - 1)%nat = Some a /\ ee !! (k - 1)%nat = Some p /\
         measurements noise (Z.to_nat n) !! k = Some zk /\
         xe !! k = Some (fst (step pv mv (a, p) zk)) /\
         ee !! k = Some (snd (step pv mv (a, p) zk))) /\
    (forall k, (k < Z.to_nat n)%nat ->
       xe !! k = Some (fst (estimate_at pv mv x0 p0
                              (measurements noise (Z.to_nat n)) k)) /\
       ee !! k = Some (snd (estimate_at pv mv x0 p0
                              (measurements noise (Z.to_nat n)) k))).
Proof.
  intros Hn.
  destruct (kalman_filter_body_run pv mv x0 p0 noise n Hn)
    as (xe & ee & Hrun & Hlx & Hle & Hx0 & Hp0 & Hstep).
  exists xe, ee.
  unfold kalman_filter_with, kalman_filter_trace. rewrite Hrun. simpl.
  repeat split; try assumption.
  - apply (recurrence_estimate_at pv mv x0 p0 _ xe ee (Z.to_nat n));
      assumption.
  - apply (recurrence_estimate_at pv mv x0 p0 _ xe ee (Z.to_nat n));
      assumption.
Qed.

Lemma reads_of_iterations (ks : list nat) :
  reads_of (flat_map iteration_events ks) =
  flat_map (fun k => [(arr_error_estimate, (k - 1)%nat);
                      (arr_x_estimate, (k - 1)%nat); (arr_z, k)]) ks.
Proof.
  induction ks as [|k ks IH]; [reflexivity|].
  simpl. unfold reads_of in *. simpl. rewrite IH. reflexivity.
Qed.

Lemma writes_to_app (a : array) (t1 t2 : list event) :
  writes_to a (t1 ++ t2) = writes_to a t1 ++ writes_to a t2.
Proof. unfold writes_to. apply flat_map_app. Qed.

Lemma writes_to_iterations (a : array) (ks : list nat) :
  writes_to a (flat_map iteration_events ks) =
  if decide (a = arr_x_estimate \/ a = arr_error_estimate) then ks else [].
Proof.
  induction ks as [|k ks IH].
  - simpl. now destruct (decide _).
  - change (flat_map iteration_events (k :: ks))
      with (iteration_events k ++ flat_map iteration_events ks).
    rewrite writes_to_app, IH.
    destruct a; reflexivity.
Qed.

(** ** C1: the four equations *)

(** C1.  For every positive step count the run succeeds, and at every step
    [k] with [1 <= k <= N-1] the two values written at [k] are given by the
    four predict/update equations applied to [x_estimate[k-1]],
    [error_estimate[k-1]] and [z[k]]; the elements the loop reads are, in
    order, exactly [error_estimate[k-1]], [x_estimate[k-1]] and [z[k]] for
    [k = 1, ..., N-1]. *)
Theorem C1_four_equation_step
    (n : Z) (pv mv x0 p0 : num) (noise : nat -> num) :
  (0 < n)%Z ->
  exists x xe z ee tr,
    kalman_filter_with n pv mv x0 p0 noise = inr (x, xe, z, ee) /\
    kalman_filter_trace n pv mv x0 p0 noise = inr tr /\
    (forall k, (1 <= k <= Z.to_nat n - 1)%nat ->
       exists x_prev p_prev z_k,
         xe !! (k - 1)%nat = Some x_prev /\
         ee !! (k - 1)%nat = Some p_prev /\
         z !! k = Some z_k /\
         let model_variance := (p_prev + pv)%num in
         let K := (model_variance / (model_variance + mv))%num in
         xe !! k = Some (x_prev + K * (z_k - x_prev))%num /\
         ee !! k = Some ((Fin 1 - K) * model_variance)%num) /\
    reads_of tr =
      flat_map (fun k => [(arr_error_estimate, (k - 1)%nat);
                          (arr_x_estimate, (k - 1)%nat); (arr_z, k)])
               (seq 1 (Z.to_nat n - 1)).
Proof.
  intros Hn.
  destruct (kalman_filter_with_run n pv mv x0 p0 noise Hn)
    as (xe & ee & Hrun & Htr & _ & _ & Hstep & _).
  eexists _, xe, _, ee, _. split; [exact Hrun|]. split; [exact Htr|]. split.
  - intros k Hk.
    destruct (Hstep k) as (a & p & zk & Ha & Hp & Hz & Hxe & Hee); [lia|].
    exists a, p, zk. repeat split; assumption.
  - unfold reads_of at 1. rewrite flat_map_app. simpl.
    apply reads_of_iterations.
Qed.

Lemma C1_four_equation_step_witness :
  (0 < 4)%Z /\
  exists x xe z ee tr,
    kalman_filter_with 4 (Fin 0) (Fin (1#10)) (Fin 0) (Fin 1) golden_z
      = inr (x, xe, z, ee) /\
    kalman_filter_trace 4 (Fin 0) (Fin (1#10)) (Fin 0) (Fin 1) golden_z
      = inr tr.
Proof.
  split; [lia|].
  destruct (C1_four_equation_step 4 (Fin 0) (Fin (1#10)) (Fin 0) (Fin 1)
              golden_z ltac:(lia)) as (x & xe & z & ee & tr & H1 & H2 & _).
  exists x, xe, z, ee, tr. split; assumption.
Defined.

(** ** C2: the golden values *)

Section GoldenValues.

Import PrimFloat.

(** C2, as stated, fails: on the golden input [x_estimate[2]] is 0 to four
    places, not [0.4334] (the gain [10/21] applied to the innovation
    [-1 - 10/11] cancels the prior [10/11]).  This holds of the rational
    run, where the value is 0, and of the binary64 replay, where it is
    [-2.22e-16]. *)
Lemma C2_golden_x_hat_2_counterexample :
  (exists x xe z ee v,
     kalman_filter_with 4 (Fin 0) (Fin 0.1) (Fin 0) (Fin 1) golden_z
       = inr (x, xe, z, ee) /\
     z = [Fin 0; Fin 1; Fin (-1); Fin (1 # 2)] /\
     xe !! 2%nat = Some v /\ approx4 v 0 /\ ~ approx4 v 0.4334) /\
  (let v := num_of_float
              (fst (Binary64.estimate_at 0 0.1 0 1 Binary64.golden_z 2)%float) in
   approx4 v 0 /\ ~ approx4 v 0.4334).
Proof.
  split.
  - eexists _, _, _, _, _.
    split; [vm_compute; reflexivity|].
    split; [reflexivity|].
    split; [reflexivity|].
    split; [vm_compute; discriminate|].
    intros H. vm_compute in H. apply H. reflexivity.
  - cbv zeta. split; [vm_compute; discriminate|].
    intros H. vm_compute in H. apply H. reflexivity.
Qed.

(** C2, amended.  On the golden input, to four decimal places: step 1 has
    [model_variance = 1.0], [K = 0.9091], [x_estimate[1] = 0.9091] and
    [error_estimate[1] = 0.0909]; step 2 has [model_variance = 0.0909],
    [K = 0.4762], [x_estimate[2] = 0.0000] and
    [error_estimate[2] = 0.0476].  This holds of the rational run and of
    the binary64 replay, in which moreover [model_variance] of step 1 is
    exactly [1.0] and the gain of step 1 exactly the double [1.0 / 1.1]. *)
Theorem C2_golden_values :
  (exists x xe z ee p_0 x_1 p_1 x_2 p_2,
     kalman_filter_with 4 (Fin 0) (Fin 0.1) (Fin 0) (Fin 1) golden_z
       = inr (x, xe, z, ee) /\
     z = [Fin 0; Fin 1; Fin (-1); Fin (1 # 2)] /\
     ee !! 0%nat = Some p_0 /\
     xe !! 1%nat = Some x_1 /\ ee !! 1%nat = Some p_1 /\
     xe !! 2%nat = Some x_2 /\ ee !! 2%nat = Some p_2 /\
     let model_variance_1 := _calculate_model_variance p_0 (Fin 0) in
     let K_1 := _calculate_kalman_gain model_variance_1 (Fin 0.1) in
     let model_variance_2 := _calculate_model_variance p_1 (Fin 0) in
     let K_2 := _calculate_kalman_gain model_variance_2 (Fin 0.1) in
     (approx4 model_variance_1 1 /\ approx4 K_1 0.9091 /\
      approx4 x_1 0.9091 /\ approx4 p_1 0.0909) /\
     (approx4 model_variance_2 0.0909 /\ approx4 K_2 0.4762 /\
      approx4 x_2 0 /\ approx4 p_2 0.0476)) /\
  (let at_step := (Binary64.estimate_at 0 0.1 0 1 Binary64.golden_z)%float in
   let gain := (Binary64.gain_at 0 0.1 0 1 Binary64.golden_z)%float in
   let model_variance k :=
     Binary64._calculate_model_variance (snd (at_step (k - 1)%nat)) 0%float in
   (model_variance 1%nat = 1%float /\
    gain 1%nat = (1 / 1.1)%float /\
    approx4 (num_of_float (gain 1%nat)) 0.9091 /\
    approx4 (num_of_float (fst (at_step 1%nat))) 0.9091 /\
    approx4 (num_of_float (snd (at_step 1%nat))) 0.0909) /\
   (approx4 (num_of_float (model_variance 2%nat)) 0.0909 /\
    approx4 (num_of_float (gain 2%nat)) 0.4762 /\
    approx4 (num_of_float (fst (at_step 2%nat))) 0 /\
    approx4 (num_of_float (snd (at_step 2%nat))) 0.0476)).
Proof.
  split.
  - eexists _, _, _, _, _, _, _, _, _.
    split; [vm_compute; reflexivity|].
    do 6 (split; [reflexivity|]).
    cbv zeta.
    repeat split; vm_compute; discriminate.
  - cbv zeta.
    repeat split; vm_compute; first [reflexivity | discriminate].
Qed.

End GoldenValues.

(** ** C3: argument checking *)

(** C3, as stated, fails: a negative process variance is not rejected. *)
Lemma C3_negative_process_variance_counterexample :
  (Fin (-0.5) < Fin 0)%num /\
  exists x xe z ee,
    kalman_filter_with 3 (Fin (-0.5)) (Fin 0.1) (Fin 0) (Fin 1) golden_z
      = inr (x, xe, z, ee) /\
    length xe = 3%nat /\ length ee = 3%nat.
Proof.
  split; [reflexivity|].
  eexists _, _, _, _.
  split; [vm_compute; reflexivity|].
  split; reflexivity.
Qed.

(** C3, amended.  A negative step count fails with the [ValueError] of the
    first array allocation and a zero step count with the [IndexError] of
    the first initial-guess write; either way nothing is returned.  The
    variances are not checked: for every positive step count, whatever the
    two variances, the run returns four sequences of that length. *)
Theorem C3_argument_checking
    (n : Z) (pv mv x0 p0 : num) (noise : nat -> num) :
  match (n ?= 0)%Z with
  | Lt => kalman_filter_with n pv mv x0 p0 noise = inl ValueError
  | Eq => kalman_filter_with n pv mv x0 p0 noise = inl IndexError
  | Gt => exists x xe z ee,
            kalman_filter_with n pv mv x0 p0 noise = inr (x, xe, z, ee) /\
            length x = Z.to_nat n /\ length xe = Z.to_nat n /\
            length z = Z.to_nat n /\ length ee = Z.to_nat n
  end.
Proof.
  destruct (Z.compare_spec n 0) as [->|Hlt|Hgt].
  - reflexivity.
  - unfold kalman_filter_with, kalman_filter_body, bind, np_zeros.
    rewrite (proj2 (Z.ltb_lt n 0) Hlt). reflexivity.
  - destruct (kalman_filter_with_run n pv mv x0 p0 noise Hgt)
      as (xe & ee & Hrun & _ & Hlx & Hle & _).
    eexists _, xe, _, ee. split; [exact Hrun|].
    rewrite length_replicate, length_measurements. now repeat split.
Qed.

(** ** C4: the error estimate is non-negative *)

(** C4, as stated, fails: with both variances zero the third error
    estimate is NaN ([0/0] in the gain), and [NaN >= 0] is false. *)
Lemma C4_both_variances_zero_counterexample :
  (Fin 0 <= Fin 0)%num /\
  exists x xe z ee p,
    kalman_filter_with 3 (Fin 0) (Fin 0) (Fin 0) (Fin 1) golden_z
      = inr (x, xe, z, ee) /\
    ee !! 2%nat = Some p /\ p = NaN /\ ~ (Fin 0 <= p)%num.
Proof.
  split; [reflexivity|].
  eexists _, _, _, _, _.
  split; [vm_compute; reflexivity|].
  split; [reflexivity|].
  split; [reflexivity|].
  apply nle_NaN_r.
Qed.

Lemma not_both_zero (q r : Q) :
  0 <= q -> 0 <= r -> ~ (q == 0 /\ r == 0) -> 0 < q + r.
Proof.
  intros Hq Hr Hne.
  destruct (Qlt_le_dec 0 (q + r)) as [H|H]; [exact H|].
  exfalso. apply Hne. split; apply Qle_antisym; lra.
Qed.

Section Overflow.

Import PrimFloat.

(** Binary64 adds a second way to fail: with both variances [1e308] and
    [P[0] = 1.0] the model variance of step 2 overflows to [+inf], the
    gain is [inf / inf], and [error_estimate[2]] is NaN. *)
Lemma error_estimate_overflow_binary64 :
  (let P k :=
     snd (Binary64.estimate_at 1e308 1e308 0 1 Binary64.golden_z k) in
   P 1%nat = 1e308 /\ PrimFloat.is_nan (P 2%nat) = true /\
   PrimFloat.leb 0 (P 2%nat) = false)%float.
Proof. cbv zeta. repeat split; vm_compute; reflexivity. Qed.

End Overflow.

(** C4, amended.  In exact arithmetic (no rounding, no overflow), with
    [P[0] = 1.0] and non-negative process and measurement variances that
    are not both zero, every error estimate [P[k]], [0 <= k <= N-1], is
    [>= 0]. *)
Theorem C4_error_estimate_nonneg
    (n : Z) (q r : Q) (x0 : num) (noise : nat -> num) :
  0 <= q -> 0 <= r -> ~ (q == 0 /\ r == 0) -> (0 < n)%Z ->
  exists x xe z ee,
    kalman_filter_with n (Fin q) (Fin r) x0 (Fin 1) noise
      = inr (x, xe, z, ee) /\
    forall k, (k < Z.to_nat n)%nat ->
      exists p, ee !! k = Some p /\ (Fin 0 <= p)%num.
Proof.
  intros Hq Hr Hne Hn.
  pose proof (not_both_zero q r Hq Hr Hne) as Hqr.
  destruct (kalman_filter_with_run n (Fin q) (Fin r) x0 (Fin 1) noise Hn)
    as (xe & ee & Hrun & _ & _ & _ & _ & Hest).
  eexists _, xe, _, ee. split; [exact Hrun|].
  intros k Hk. destruct (Hest k Hk) as [_ Hp].
  rewrite snd_estimate_at in Hp by (assumption || lra).
  eexists. split; [exact Hp|].
  apply nle_Fin. apply error_at_nonneg; (assumption || lra).
Qed.

Lemma C4_error_estimate_nonneg_witness :
  0 <= 0 /\ 0 <= 0.1 /\ ~ (0 == 0 /\ 0.1 == 0) /\ (0 < 4)%Z /\
  exists x xe z ee,
    kalman_filter_with 4 (Fin 0) (Fin 0.1) (Fin 0) (Fin 1) golden_z
      = inr (x, xe, z, ee) /\
    forall k, (k < Z.to_nat 4)%nat ->
      exists p, ee !! k = Some p /\ (Fin 0 <= p)%num.
Proof.
  assert (H1 : 0 <= 0) by (vm_compute; discriminate).
  assert (H2 : 0 <= 0.1) by (vm_compute; discriminate).
  assert (H3 : ~ (0 == 0 /\ 0.1 == 0)) by (intros [_ H]; vm_compute in H; discriminate).
  assert (H4 : (0 < 4)%Z) by reflexivity.
  repeat (split; [assumption|]).
  exact (C4_error_estimate_nonneg 4 0 0.1 (Fin 0) golden_z H1 H2 H3 H4).
Defined.

(** ** C5: the gain lies in [0, 1] *)

Lemma gain_in_unit_interval (m r : Q) :
  0 <= m -> 0 < r ->
  exists g, _calculate_kalman_gain (Fin m) (Fin r) = Fin g /\ 0 <= g <= 1.
Proof.
  intros Hm Hr. exists (m / (m + r)). split.
  - unfold _calculate_kalman_gain. cbn [nadd].
    apply ndiv_Fin, denominator_nonzero. lra.
  - apply gain_bounds; lra.
Qed.

Section InfiniteModelVariance.

Import PrimFloat.

(** C5, as stated, fails at an infinite model variance: [+inf >= 0], and
    its gain [inf / inf] is NaN.  The binary64 replay reaches this state
    from finite variances: with both variances [1e308] and [P[0] = 1.0],
    the model variance of step 2 overflows to [+inf] and the gain of step
    2 is NaN. *)
Lemma C5_infinite_model_variance_counterexample :
  ((Fin 0 <= Inf false)%num /\ (Fin 0 < Fin 0.1)%num /\
   _calculate_kalman_gain (Inf false) (Fin 0.1) = NaN /\
   ~ (Fin 0 <= NaN)%num) /\
  (let model_variance_2 :=
     Binary64._calculate_model_variance
       (snd (Binary64.estimate_at 1e308 1e308 0 1 Binary64.golden_z 1))
       1e308 in
   let K_2 := Binary64.gain_at 1e308 1e308 0 1 Binary64.golden_z 2 in
   PrimFloat.ltb 0 1e308 = true /\
   model_variance_2 = infinity /\ PrimFloat.leb 0 model_variance_2 = true /\
   PrimFloat.is_nan K_2 = true /\ PrimFloat.leb 0 K_2 = false)%float.
Proof.
  split.
  - split; [reflexivity|]. split; [reflexivity|]. split; [reflexivity|].
    apply nle_NaN_r.
  - cbv zeta. repeat split; vm_compute; reflexivity.
Qed.

End InfiniteModelVariance.

(** C5, amended.  With [measurement_variance > 0], at every step [k] with
    [1 <= k <= N-1] of a run, whenever the model variance
    [P[k-1] + process_variance] is finite and [>= 0], the gain computed
    from it lies in [[0, 1]]. *)
Theorem C5_gain_in_unit_interval
    (n : Z) (pv mv x0 p0 : num) (noise : nat -> num) :
  (Fin 0 < mv)%num -> (0 < n)%Z ->
  exists x xe z ee,
    kalman_filter_with n pv mv x0 p0 noise = inr (x, xe, z, ee) /\
    forall k, (1 <= k <= Z.to_nat n - 1)%nat ->
      exists p_prev,
        ee !! (k - 1)%nat = Some p_prev /\
        forall m : Q,
          _calculate_model_variance p_prev pv = Fin m -> 0 <= m ->
          let K := _calculate_kalman_gain (Fin m) mv in
          (Fin 0 <= K)%num /\ (K <= Fin 1)%num.
Proof.
  intros Hmv Hn.
  destruct (kalman_filter_with_run n pv mv x0 p0 noise Hn)
    as (xe & ee & Hrun & _ & _ & _ & _ & Hest).
  eexists _, xe, _, ee. split; [exact Hrun|].
  intros k Hk. destruct (Hest (k - 1)%nat) as [_ Hp]; [lia|].
  eexists. split; [exact Hp|].
  intros m _ Hm. cbv zeta.
  destruct mv as [r|[|]|]; try discriminate Hmv.
  - apply nlt_Fin in Hmv.
    destruct (gain_in_unit_interval m r Hm Hmv) as (g & Hg & Hg0 & Hg1).
    rewrite Hg. split; apply nle_Fin; assumption.
  - split; reflexivity.
Qed.

Lemma C5_gain_in_unit_interval_witness :
  (Fin 0 < Fin 0.1)%num /\ (0 < 4)%Z /\
  exists x xe z ee p_prev,
    kalman_filter_with 4 (Fin 0) (Fin 0.1) (Fin 0) (Fin 1) golden_z
      = inr (x, xe, z, ee) /\
    ee !! 0%nat = Some p_prev /\
    _calculate_model_variance p_prev (Fin 0) = Fin (1 + 0) /\
    let K := _calculate_kalman_gain (Fin (1 + 0)) (Fin 0.1) in
    (Fin 0 <= K)%num /\ (K <= Fin 1)%num.
Proof.
  assert (H1 : (Fin 0 < Fin 0.1)%num) by reflexivity.
  assert (H2 : (0 < 4)%Z) by reflexivity.
  split; [exact H1|]. split; [exact H2|].
  destruct (C5_gain_in_unit_interval 4 (Fin 0) (Fin 0.1) (Fin 0) (Fin 1)
              golden_z H1 H2)
    as (x & xe & z & ee & Hrun & Hsteps).
  destruct (Hsteps 1%nat ltac:(simpl; lia)) as (p_prev & Hp & HK).
  exists x, xe, z, ee, p_prev. split; [exact Hrun|]. split; [exact Hp|].
  assert (Hm : _calculate_model_variance p_prev (Fin 0) = Fin (1 + 0)).
  { vm_compute in Hrun. injection Hrun as _ _ _ <-.
    simpl in Hp. injection Hp as <-. reflexivity. }
  split; [exact Hm|].
  apply (HK (1 + 0) Hm). vm_compute; discriminate.
Defined.

(** ** C6: monotonic convergence of the error estimate *)

(** The error estimates of a run with no process noise, as rationals. *)
Lemma error_estimates_no_process_noise
    (n : Z) (r p0 : Q) (x0 : num) (noise : nat -> num) :
  0 < r -> 0 <= p0 -> (0 < n)%Z ->
  exists x xe z ee,
    kalman_filter_with n (Fin 0) (Fin r) x0 (Fin p0) noise
      = inr (x, xe, z, ee) /\
    forall k, (k < Z.to_nat n)%nat ->
      ee !! k = Some (Fin (error_at 0 r p0 k)).
Proof.
  intros Hr Hp0 Hn.
  destruct (kalman_filter_with_run n (Fin 0) (Fin r) x0 (Fin p0) noise Hn)
    as (xe & ee & Hrun & _ & _ & _ & _ & Hest).
  eexists _, xe, _, ee. split; [exact Hrun|].
  intros k Hk. destruct (Hest k Hk) as [_ Hp].
  rewrite snd_estimate_at in Hp by lra. exact Hp.
Qed.

Section MonotoneConvergence.

Import PrimFloat.

(** C6, as stated, fails in binary64 for a large measurement variance: with
    [measurement_variance = 1e17] the gain [1 / (1 + 1e17)] is below half
    an ulp of 1, so [1 - K] rounds to 1 and the error estimate stays at
    [1.0]: [P[4999] < P[10]] is false, and [P[k]] does not approach 0. *)
Lemma C6_large_measurement_variance_counterexample :
  (let P k := snd (Binary64.estimate_at 0 1e17 0 1 Binary64.golden_z k) in
   PrimFloat.ltb 0 1e17 = true /\
   P 10%nat = 1 /\ P 4999%nat = 1 /\
   PrimFloat.ltb (P 4999%nat) (P 10%nat) = false)%float.
Proof.
  cbv zeta. repeat split; vm_compute; reflexivity.
Qed.

(** C6, amended.  In exact arithmetic, with [process_variance = 0],
    [measurement_variance > 0] and [P[0] = 1.0]: the error estimates are
    non-increasing ([P[k] <= P[k-1]] for every [k >= 1]); they tend to 0
    (they are non-negative, and for every [eps > 0] there is an index from
    which on every [P[k]] of every run is below [eps]); and a run of 5000
    points has [P[4999] < P[10]].  In binary64, [P[4999] < P[10]] holds at
    the program's own [measurement_variance = 0.1]. *)
Theorem C6_monotone_convergence (r : Q) :
  0 < r ->
  (forall (n : Z) (x0 : num) (noise : nat -> num),
     (0 < n)%Z ->
     exists x xe z ee,
       kalman_filter_with n (Fin 0) (Fin r) x0 (Fin 1) noise
         = inr (x, xe, z, ee) /\
       forall k, (1 <= k <= Z.to_nat n - 1)%nat ->
         exists p p_prev,
           ee !! k = Some p /\ ee !! (k - 1)%nat = Some p_prev /\
           (p <= p_prev)%num) /\
  (forall eps : Q,
     0 < eps ->
     exists k0 : nat,
       forall (n : Z) (x0 : num) (noise : nat -> num),
         (0 < n)%Z ->
         exists x xe z ee,
           kalman_filter_with n (Fin 0) (Fin r) x0 (Fin 1) noise
             = inr (x, xe, z, ee) /\
           forall k, (k0 <= k <= Z.to_nat n - 1)%nat ->
             exists p, ee !! k = Some p /\
                       (Fin 0 <= p)%num /\ (p < Fin eps)%num) /\
  (forall (x0 : num) (noise : nat -> num),
     exists x xe z ee p_last p_10,
       kalman_filter_with 5000 (Fin 0) (Fin r) x0 (Fin 1) noise
         = inr (x, xe, z, ee) /\
       ee !! 4999%nat = Some p_last /\ ee !! 10%nat = Some p_10 /\
       (p_last < p_10)%num) /\
  (let P k := snd (Binary64.estimate_at 0 0.1 0 1 Binary64.golden_z k) in
   PrimFloat.ltb (P 4999%nat) (P 10%nat) = true)%float.
Proof.
  intros Hr.
  assert (H1 : 0 <= 1) by lra.
  split; [|split; [|split]]; [| | |vm_compute; reflexivity].
  - intros n x0 noise Hn.
    destruct (error_estimates_no_process_noise n r 1 x0 noise Hr H1 Hn)
      as (x & xe & z & ee & Hrun & Hee).
    exists x, xe, z, ee. split; [exact Hrun|].
    intros k Hk. eexists _, _.
    split; [apply Hee; lia|]. split; [apply Hee; lia|].
    apply nle_Fin.
    replace k with (S (k - 1)) at 1 by lia.
    apply error_at_decreasing; lra.
  - intros eps Heps.
    destruct (P_closed_below r 1 Hr H1 eps Heps) as [k0 Hk0].
    exists k0. intros n x0 noise Hn.
    destruct (error_estimates_no_process_noise n r 1 x0 noise Hr H1 Hn)
      as (x & xe & z & ee & Hrun & Hee).
    exists x, xe, z, ee. split; [exact Hrun|].
    intros k Hk. eexists. split; [apply Hee; lia|]. split.
    + apply nle_Fin. apply error_at_nonneg; lra.
    + apply nlt_Fin. rewrite error_at_closed by lra. apply Hk0. lia.
  - intros x0 noise.
    destruct (error_estimates_no_process_noise 5000 r 1 x0 noise Hr H1
                ltac:(lia)) as (x & xe & z & ee & Hrun & Hee).
    exists x, xe, z, ee. eexists _, _. split; [exact Hrun|].
    split; [apply Hee; lia|]. split; [apply Hee; lia|].
    apply nlt_Fin. rewrite !error_at_closed by lra.
    apply P_closed_strictly_decreasing; (lra || lia).
Qed.

Lemma C6_monotone_convergence_witness :
  0 < 0.1 /\
  exists x xe z ee p_last p_10,
    kalman_filter_with 5000 (Fin 0) (Fin 0.1) (Fin 0) (Fin 1) golden_z
      = inr (x, xe, z, ee) /\
    ee !! 4999%nat = Some p_last /\ ee !! 10%nat = Some p_10 /\
    (p_last < p_10)%num.
Proof.
  assert (H : 0 < 0.1) by reflexivity.
  split; [exact H|].
  exact (proj1 (proj2 (proj2 (C6_monotone_convergence 0.1 H)))
           (Fin 0) golden_z).
Defined.

End MonotoneConvergence.

(** ** C10: the closed form *)

(** C10.  With [process_variance = 0], [measurement_variance = r > 0] and
    [P[0] = p0 > 0], every error estimate of a run is a positive rational
    [P[k]] with [1/P[k] = 1/p0 + k/r], that is
    [P[k] = p0 * r / (k * p0 + r)]; with [p0 = 1] and [r = 0.1] this is
    [1 / (1 + 10 k)]. *)
Theorem C10_closed_form
    (n : Z) (r p0 : Q) (x0 : num) (noise : nat -> num) :
  0 < r -> 0 < p0 -> (0 < n)%Z ->
  exists x xe z ee,
    kalman_filter_with n (Fin 0) (Fin r) x0 (Fin p0) noise
      = inr (x, xe, z, ee) /\
    forall k, (k < Z.to_nat n)%nat ->
      exists p_k : Q,
        ee !! k = Some (Fin p_k) /\
        0 < p_k /\
        / p_k == / p0 + inject_Z (Z.of_nat k) / r /\
        p_k == P_closed p0 r k /\
        (p0 == 1 -> r == 0.1 ->
         p_k == 1 / (1 + 10 * inject_Z (Z.of_nat k))).
Proof.
  intros Hr Hp0 Hn.
  destruct (error_estimates_no_process_noise n r p0 x0 noise Hr
              (Qlt_le_weak _ _ Hp0) Hn) as (x & xe & z & ee & Hrun & Hee).
  exists x, xe, z, ee. split; [exact Hrun|].
  intros k Hk. exists (error_at 0 r p0 k).
  pose proof (error_at_closed r p0 Hr (Qlt_le_weak _ _ Hp0) k) as Hc.
  pose proof (closed_denominator_pos r p0 Hr (Qlt_le_weak _ _ Hp0) k) as Hd.
  split; [apply Hee; exact Hk|]. split; [|split; [|split]].
  - rewrite Hc. unfold P_closed. apply Qlt_shift_div_l; [exact Hd|].
    pose proof (Qmult_lt_0_compat _ _ Hp0 Hr). lra.
  - apply error_at_inverse; lra.
  - exact Hc.
  - intros E1 E2. rewrite Hc. unfold P_closed.
    pose proof (inject_nat_nonneg k) as Hk0.
    rewrite E1, E2 in *. field. lra.
Qed.

Lemma C10_closed_form_witness :
  0 < 0.1 /\ 0 < 1 /\ (0 < 4)%Z /\
  exists x xe z ee,
    kalman_filter_with 4 (Fin 0) (Fin 0.1) (Fin 0) (Fin 1) golden_z
      = inr (x, xe, z, ee) /\
    exists p_3, ee !! 3%nat = Some (Fin p_3) /\ p_3 == 1 # 31.
Proof.
  assert (H1 : 0 < 0.1) by reflexivity.
  assert (H2 : 0 < 1) by reflexivity.
  assert (H3 : (0 < 4)%Z) by reflexivity.
  repeat (split; [assumption|]).
  destruct (C10_closed_form 4 0.1 1 (Fin 0) golden_z H1 H2 H3)
    as (x & xe & z & ee & Hrun & Hee).
  exists x, xe, z, ee. split; [exact Hrun|].
  destruct (Hee 3%nat ltac:(simpl; lia)) as (p & Hp & _ & _ & Hc & _).
  exists p. split; [exact Hp|]. rewrite Hc. reflexivity.
Defined.

(** ** C7: the unguarded division *)

Lemma gain_zero_over_zero (e : Q) :
  e == 0 ->
  _calculate_kalman_gain (_calculate_model_variance (Fin e) (Fin 0)) (Fin 0)
  = NaN.
Proof.
  intros He. unfold _calculate_kalman_gain, _calculate_model_variance.
  cbn [nadd ndiv].
  assert (E1 : Qeq_bool (e + 0 + 0) 0 = true) by (apply Qeq_bool_iff; lra).
  assert (E2 : (e + 0 ?= 0) = Eq) by (apply Qeq_alt; lra).
  rewrite E1. unfold inf_of_sign. rewrite E2. reflexivity.
Qed.

Lemma x_estimate_NaN_gain (a zk : num) : _calculate_x_estimate a NaN zk = NaN.
Proof. unfold _calculate_x_estimate. now destruct a as [?|[]|]. Qed.

Lemma error_estimate_NaN_gain (m : num) : _calculate_error_estimate NaN m = NaN.
Proof. reflexivity. Qed.

Lemma divisor_positive (p q r : num) :
  (Fin 0 <= p)%num -> (Fin 0 <= q)%num -> (Fin 0 < r)%num ->
  (Fin 0 < _calculate_model_variance p q + r)%num.
Proof.
  unfold _calculate_model_variance.
  destruct p as [p|[|]|], q as [q|[|]|], r as [r|[|]|];
    intros Hp Hq Hr; try discriminate; try reflexivity.
  apply nle_Fin in Hp, Hq. apply nlt_Fin in Hr.
  cbn [nadd]. apply nlt_Fin. lra.
Qed.

(** C7.  The division of the gain has no guard.  (a) When
    [measurement_variance > 0], [P[k-1] >= 0] and [process_variance >= 0]
    the divisor [model_variance + measurement_variance] is strictly
    positive; in a run with such variances this holds at every step whose
    [P[k-1]] is [>= 0].  (b) With both variances zero the run still
    returns, and step 2 divides [0] by [0]: its gain is NaN, and so are
    [x_estimate[2]] and [error_estimate[2]]. *)
Theorem C7_unguarded_division :
  (forall p q r : num,
     (Fin 0 <= p)%num -> (Fin 0 <= q)%num -> (Fin 0 < r)%num ->
     (Fin 0 < _calculate_model_variance p q + r)%num) /\
  (forall (n : Z) (pv mv x0 p0 : num) (noise : nat -> num),
     (Fin 0 <= pv)%num -> (Fin 0 < mv)%num -> (0 < n)%Z ->
     exists x xe z ee,
       kalman_filter_with n pv mv x0 p0 noise = inr (x, xe, z, ee) /\
       forall k, (1 <= k <= Z.to_nat n - 1)%nat ->
         exists p_prev,
           ee !! (k - 1)%nat = Some p_prev /\
           ((Fin 0 <= p_prev)%num ->
            (Fin 0 < _calculate_model_variance p_prev pv + mv)%num)) /\
  (forall (n : Z) (x0 : num) (noise : nat -> num),
     (3 <= n)%Z ->
     exists x xe z ee p_1,
       kalman_filter_with n (Fin 0) (Fin 0) x0 (Fin 1) noise
         = inr (x, xe, z, ee) /\
       ee !! 1%nat = Some p_1 /\
       num_eq (_calculate_model_variance p_1 (Fin 0)) (Fin 0) /\
       _calculate_kalman_gain (_calculate_model_variance p_1 (Fin 0)) (Fin 0)
         = NaN /\
       xe !! 2%nat = Some NaN /\ ee !! 2%nat = Some NaN).
Proof.
  split; [|split].
  - exact divisor_positive.
  - intros n pv mv x0 p0 noise Hpv Hmv Hn.
    destruct (kalman_filter_with_run n pv mv x0 p0 noise Hn)
      as (xe & ee & Hrun & _ & _ & _ & _ & Hest).
    eexists _, xe, _, ee. split; [exact Hrun|].
    intros k Hk. destruct (Hest (k - 1)%nat) as [_ Hp]; [lia|].
    eexists. split; [exact Hp|].
    intros Hnn. now apply divisor_positive.
  - intros n x0 noise Hn.
    destruct (kalman_filter_with_run n (Fin 0) (Fin 0) x0 (Fin 1) noise
                ltac:(lia))
      as (xe & ee & Hrun & _ & _ & _ & _ & Hest).
    set (zs := measurements noise (Z.to_nat n)) in *.
    destruct (Hest 1%nat ltac:(lia)) as [_ Hp1].
    destruct (Hest 2%nat ltac:(lia)) as [Hx2 Hp2].
    set (e1 := (1 - (1 + 0) / (1 + 0 + 0)) * (1 + 0)).
    assert (He1 : e1 == 0) by reflexivity.
    assert (E1 : snd (estimate_at (Fin 0) (Fin 0) x0 (Fin 1) zs 1) = Fin e1)
      by reflexivity.
    pose proof (gain_zero_over_zero e1 He1) as HK.
    change (estimate_at (Fin 0) (Fin 0) x0 (Fin 1) zs 2)
      with (step (Fin 0) (Fin 0) (estimate_at (Fin 0) (Fin 0) x0 (Fin 1) zs 1)
              (default NaN (zs !! 2%nat))) in Hx2, Hp2.
    unfold step in Hx2, Hp2. cbn [fst snd] in Hx2, Hp2.
    rewrite E1, HK in Hx2, Hp2.
    rewrite x_estimate_NaN_gain in Hx2.
    rewrite error_estimate_NaN_gain in Hp2.
    rewrite E1 in Hp1.
    eexists _, xe, _, ee, (Fin e1). split; [exact Hrun|].
    split; [exact Hp1|]. split; [reflexivity|].
    split; [exact HK|]. split; assumption.
Qed.

Lemma C7_unguarded_division_witness :
  ((Fin 0 <= Fin 1)%num /\ (Fin 0 <= Fin 0)%num /\ (Fin 0 < Fin 0.1)%num /\
   (Fin 0 < _calculate_model_variance (Fin 1) (Fin 0) + Fin 0.1)%num) /\
  ((3 <= 3)%Z /\
   exists x xe z ee p_1,
     kalman_filter_with 3 (Fin 0) (Fin 0) (Fin 0) (Fin 1) golden_z
       = inr (x, xe, z, ee) /\
     ee !! 1%nat = Some p_1 /\
     num_eq (_calculate_model_variance p_1 (Fin 0)) (Fin 0) /\
     _calculate_kalman_gain (_calculate_model_variance p_1 (Fin 0)) (Fin 0)
       = NaN /\
     xe !! 2%nat = Some NaN /\ ee !! 2%nat = Some NaN).
Proof.
  assert (H1 : (Fin 0 <= Fin 1)%num) by reflexivity.
  assert (H2 : (Fin 0 <= Fin 0)%num) by reflexivity.
  assert (H3 : (Fin 0 < Fin 0.1)%num) by reflexivity.
  assert (H4 : (3 <= 3)%Z) by (vm_compute; discriminate).
  split.
  - repeat (split; [assumption|]).
    exact (proj1 C7_unguarded_division (Fin 1) (Fin 0) (Fin 0.1) H1 H2 H3).
  - split; [exact H4|].
    exact (proj2 (proj2 C7_unguarded_division) 3%Z (Fin 0) golden_z H4).
Defined.

(** ** C8: determinism *)

(** C8.  The outputs are a function of the measurement sequence: two runs
    with the same parameters whose noise draws give the same measurement
    sequence [z] of length [N] return the same four sequences, and
    [x_estimate], [error_estimate] and [z] have length [N]. *)
Theorem C8_deterministic
    (n : Z) (pv mv x0 p0 : num) (noise1 noise2 : nat -> num) :
  (0 < n)%Z ->
  measurements noise1 (Z.to_nat n) = measurements noise2 (Z.to_nat n) ->
  exists x xe z ee,
    kalman_filter_with n pv mv x0 p0 noise1 = inr (x, xe, z, ee) /\
    kalman_filter_with n pv mv x0 p0 noise2 = inr (x, xe, z, ee) /\
    z = measurements noise1 (Z.to_nat n) /\
    length z = Z.to_nat n /\
    length xe = Z.to_nat n /\ length ee = Z.to_nat n.
Proof.
  intros Hn Hz.
  destruct (kalman_filter_with_run n pv mv x0 p0 noise1 Hn)
    as (xe & ee & Hrun & _ & Hlx & Hle & _).
  eexists _, xe, _, ee. split; [exact Hrun|].
  split; [|split; [reflexivity|]].
  - rewrite <- Hrun. unfold kalman_filter_with.
    rewrite !kalman_filter_body_prefix by exact Hn.
    rewrite Hz. reflexivity.
  - rewrite length_measurements. now repeat split.
Qed.

Lemma C8_deterministic_witness :
  (0 < 4)%Z /\
  exists x xe z ee,
    kalman_filter_with 4 (Fin 0) (Fin 0.1) (Fin 0) (Fin 1) golden_z
      = inr (x, xe, z, ee) /\
    kalman_filter_with 4 (Fin 0) (Fin 0.1) (Fin 0) (Fin 1)
      (sample [0; 1; -1; 1#2; 7]) = inr (x, xe, z, ee).
Proof.
  assert (H : (0 < 4)%Z) by reflexivity.
  split; [exact H|].
  destruct (C8_deterministic 4 (Fin 0) (Fin 0.1) (Fin 0) (Fin 1)
              golden_z (sample [0; 1; -1; 1#2; 7]) H eq_refl)
    as (x & xe & z & ee & H1 & H2 & _).
  exists x, xe, z, ee. split; assumption.
Defined.

(** ** C9: the frame of the loop *)

Lemma StronglySorted_seq (a m : nat) : StronglySorted lt (seq a m).
Proof.
  revert a. induction m as [|m IH]; intros a; simpl.
  - constructor.
  - apply SSorted_cons; [apply IH|].
    apply Forall_seq. intros j Hj. lia.
Qed.

(** Whatever the store, a completed iteration [k] has changed nothing but
    index [k] of [x_estimate] and [error_estimate]. *)
Lemma loop_body_frame (pv mv : num) (k : nat) (s s' : store) :
  loop_body pv mv k s = inr (tt, s') ->
  v_x s' = v_x s /\ v_z s' = v_z s /\
  (forall j, j <> k ->
     v_x_estimate s' !! j = v_x_estimate s !! j /\
     v_error_estimate s' !! j = v_error_estimate s !! j) /\
  trace s' = trace s ++ iteration_events k.
Proof.
  destruct s as [xs zs xe ee tr].
  unfold loop_body, bind, get_item, set_item. simpl.
  destruct (ee !! (k - 1)%nat) as [p|]; simpl; [|discriminate].
  destruct (xe !! (k - 1)%nat) as [a|]; simpl; [|discriminate].
  destruct (zs !! k) as [zk|]; simpl; [|discriminate].
  destruct (decide (k < length xe)%nat); simpl; [|discriminate].
  destruct (decide (k < length ee)%nat); simpl; [|discriminate].
  intros H. injection H as <-. simpl.
  repeat split.
  - now apply list_lookup_insert_ne.
  - now apply list_lookup_insert_ne.
  - unfold iteration_events. rewrite <- !app_assoc. reflexivity.
Qed.

(** C9.  (a) A completed iteration [k >= 1] leaves [x] and [z] as they were,
    changes no element of [x_estimate] and [error_estimate] other than
    index [k], and writes exactly [x_estimate[k]] and [error_estimate[k]].
    (b) The loop over arrays of length at least [N] completes, leaves [x]
    and [z] as they were, and writes to each of [x_estimate] and
    [error_estimate] the indices [1, 2, ..., N-1] in this order (strictly
    increasing, none twice); it writes nothing to [x] and [z], and index 0
    of the two output arrays keeps its initial guess. *)
Theorem C9_frame (pv mv : num) :
  (forall (k : nat) (s s' : store),
     (1 <= k)%nat ->
     loop_body pv mv k s = inr (tt, s') ->
     v_x s' = v_x s /\ v_z s' = v_z s /\
     (forall j, j <> k ->
        v_x_estimate s' !! j = v_x_estimate s !! j /\
        v_error_estimate s' !! j = v_error_estimate s !! j) /\
     (forall a,
        writes_to a (trace s') =
        writes_to a (trace s) ++
        (if decide (a = arr_x_estimate \/ a = arr_error_estimate)
         then [k] else []))) /\
  (forall (n : nat) (s : store),
     (n <= length (v_x_estimate s))%nat ->
     (n <= length (v_error_estimate s))%nat ->
     (n <= length (v_z s))%nat ->
     exists (s' : store) (ws : list nat),
       recursion pv mv n s = inr (tt, s') /\
       v_x s' = v_x s /\ v_z s' = v_z s /\
       ws = seq 1 (n - 1) /\ StronglySorted lt ws /\ NoDup ws /\
       writes_to arr_x_estimate (trace s') =
         writes_to arr_x_estimate (trace s) ++ ws /\
       writes_to arr_error_estimate (trace s') =
         writes_to arr_error_estimate (trace s) ++ ws /\
       writes_to arr_x (trace s') = writes_to arr_x (trace s) /\
       writes_to arr_z (trace s') = writes_to arr_z (trace s) /\
       v_x_estimate s' !! 0%nat = v_x_estimate s !! 0%nat /\
       v_error_estimate s' !! 0%nat = v_error_estimate s !! 0%nat).
Proof.
  split.
  - intros k s s' _ Hrun.
    destruct (loop_body_frame pv mv k s s' Hrun) as (Hx & Hz & Hj & Htr).
    split; [exact Hx|]. split; [exact Hz|]. split; [exact Hj|].
    intros a. rewrite Htr, writes_to_app. f_equal.
    replace (iteration_events k) with (flat_map iteration_events [k])
      by reflexivity.
    apply writes_to_iterations.
  - intros n s Hxe Hee Hzs.
    assert (Hrun : exists s',
               recursion pv mv n s = inr (tt, s') /\
               v_x s' = v_x s /\ v_z s' = v_z s /\
               trace s' = trace s ++ flat_map iteration_events (seq 1 (n - 1)) /\
               v_x_estimate s' !! 0%nat = v_x_estimate s !! 0%nat /\
               v_error_estimate s' !! 0%nat = v_error_estimate s !! 0%nat).
    { destruct n as [|n].
      - exists s. simpl. rewrite app_nil_r. now repeat split.
      - destruct (for_each_run pv mv (S n - 1) 1 s)
          as (s' & Hs' & Hx & Hz & _ & _ & Htr & Hframe & _); try lia.
        exists s'. destruct (Hframe 0%nat) as [E1 E2]; [lia|].
        now repeat split. }
    destruct Hrun as (s' & Hs' & Hx & Hz & Htr & E1 & E2).
    exists s', (seq 1 (n - 1)).
    split; [exact Hs'|]. split; [exact Hx|]. split; [exact Hz|].
    split; [reflexivity|].
    split; [apply StronglySorted_seq|]. split; [apply NoDup_seq|].
    rewrite Htr, !writes_to_app, !writes_to_iterations. simpl.
    rewrite !app_nil_r. now repeat split.
Qed.

Lemma C9_frame_witness :
  let s := mkStore [Fin 0; Fin 0; Fin 0] [Fin 0; Fin 1; Fin (-1)]
                   [Fin 0; Fin 0; Fin 0] [Fin 1; Fin 0; Fin 0] [] in
  (3 <= length (v_x_estimate s))%nat /\
  (3 <= length (v_error_estimate s))%nat /\
  (3 <= length (v_z s))%nat /\
  exists s',
    recursion (Fin 0) (Fin 0.1) 3 s = inr (tt, s') /\
    v_x s' = v_x s /\ v_z s' = v_z s /\
    writes_to arr_x_estimate (trace s') = [1; 2]%nat /\
    writes_to arr_error_estimate (trace s') = [1; 2]%nat.
Proof.
  intros s.
  assert (H1 : (3 <= length (v_x_estimate s))%nat) by (simpl; lia).
  assert (H2 : (3 <= length (v_error_estimate s))%nat) by (simpl; lia).
  assert (H3 : (3 <= length (v_z s))%nat) by (simpl; lia).
  repeat (split; [assumption|]).
  destruct (proj2 (C9_frame (Fin 0) (Fin 0.1)) 3%nat s H1 H2 H3)
    as (s' & ws & Hrun & Hx & Hz & -> & _ & _ & W1 & W2 & _).
  exists s'. repeat split; assumption.
Defined.

(** ** The program as written *)

(** [kalman_filter()] itself (500 points, variance 0.1, no process noise):
    it returns four sequences of 500 elements, and in exact arithmetic its
    error estimates are [1 / (1 + 10 k)]. *)
Lemma kalman_filter_returns (noise : nat -> num) :
  exists x xe z ee,
    kalman_filter noise = inr (x, xe, z, ee) /\
    length x = 500%nat /\ length xe = 500%nat /\
    length z = 500%nat /\ length ee = 500%nat /\
    forall k, (k < 500)%nat ->
      exists p_k, ee !! k = Some (Fin p_k) /\
                  p_k == 1 / (1 + 10 * inject_Z (Z.of_nat k)).
Proof.
  unfold kalman_filter.
  assert (Hr : 0 < 0.1) by reflexivity.
  assert (H1 : 0 <= 1) by lra.
  destruct (kalman_filter_with_run 500 (Fin 0) (Fin 0.1) (Fin 0) (Fin 1)
              noise ltac:(lia))
    as (xe & ee & Hrun & _ & Hlx & Hle & _ & Hest).
  eexists _, xe, _, ee. split; [exact Hrun|].
  rewrite length_replicate, length_measurements.
  do 4 (split; [assumption || reflexivity|]).
  intros k Hk. destruct (Hest k ltac:(lia)) as [_ Hp].
  rewrite snd_estimate_at in Hp by lra.
  eexists. split; [exact Hp|].
  rewrite error_at_closed by lra. unfold P_closed.
  pose proof (inject_nat_nonneg k). field. lra.
Qed.


(** * Further properties of the code *)

(** ** Runs on finite samples *)

Section FiniteRun.

Variables q r x0 p0 : Q.
Variable f : nat -> Q.
Hypothesis Hq : 0 <= q.
Hypothesis Hr : 0 <= r.
Hypothesis Hp0 : 0 <= p0.
Hypothesis Hqr : 0 < q + r.

Lemma fst_estimate_at_finite (zs : list num) (k : nat) :
  (forall j, (1 <= j <= k)%nat -> zs !! j = Some (Fin (f j + 0))) ->
  fst (estimate_at (Fin q) (Fin r) (Fin x0) (Fin p0) zs k)
  = Fin (x_at q r x0 p0 f k).
Proof.
  induction k as [|k IH]; intros Hz; [reflexivity|].
  simpl estimate_at. unfold step. cbn [fst].
  rewrite IH by (intros j Hj; apply Hz; lia).
  rewrite (snd_estimate_at q r p0) by assumption.
  rewrite (step_gain q r) by (assumption || now apply error_at_nonneg).
  rewrite Hz by lia. reflexivity.
Qed.

(** On finite samples and non-negative variances that are not both zero
    the run returns the two rational sequences [x_at] and [error_at]. *)
Lemma finite_run (n : Z) :
  (0 < n)%Z ->
  exists x xe z ee,
    kalman_filter_with n (Fin q) (Fin r) (Fin x0) (Fin p0)
      (fun i => Fin (f i)) = inr (x, xe, z, ee) /\
    length xe = Z.to_nat n /\ length ee = Z.to_nat n /\
    forall k, (k < Z.to_nat n)%nat ->
      xe !! k = Some (Fin (x_at q r x0 p0 f k)) /\
      ee !! k = Some (Fin (error_at q r p0 k)).
Proof.
  intros Hn.
  destruct (kalman_filter_with_run n (Fin q) (Fin r) (Fin x0) (Fin p0)
              (fun i => Fin (f i)) Hn)
    as (xe & ee & Hrun & _ & Hlx & Hle & _ & Hest).
  eexists _, xe, _, ee. split; [exact Hrun|].
  split; [exact Hlx|]. split; [exact Hle|].
  intros k Hk. destruct (Hest k Hk) as [Hx Hp].
  rewrite snd_estimate_at in Hp by assumption.
  rewrite fst_estimate_at_finite in Hx.
  - now split.
  - intros j Hj. apply (lookup_measurements (fun i => Fin (f i))). lia.
Qed.

End FiniteRun.

(** ** The gain as a degree of trust *)

(** X1.  The two ends of the docstring of [_calculate_kalman_gain]: the
    gain is 1 (full trust of the measurement) when the measurement
    variance is zero and the model variance positive, and 0 (full trust of
    the model) when the model variance is zero and the measurement
    variance positive. *)
Theorem X1_gain_trust :
  (forall m : Q,
     0 < m -> num_eq (_calculate_kalman_gain (Fin m) (Fin 0)) (Fin 1)) /\
  (forall r : Q,
     0 < r -> num_eq (_calculate_kalman_gain (Fin 0) (Fin r)) (Fin 0)).
Proof.
  split.
  - intros m Hm. unfold _calculate_kalman_gain. cbn [nadd].
    rewrite ndiv_Fin by lra. simpl. field. lra.
  - intros r Hr. unfold _calculate_kalman_gain. cbn [nadd].
    rewrite ndiv_Fin by lra. simpl. field. lra.
Qed.

Lemma X1_gain_trust_witness :
  0 < 0.1 /\
  num_eq (_calculate_kalman_gain (Fin 0.1) (Fin 0)) (Fin 1) /\
  num_eq (_calculate_kalman_gain (Fin 0) (Fin 0.1)) (Fin 0).
Proof.
  assert (H : 0 < 0.1) by reflexivity.
  split; [exact H|].
  destruct X1_gain_trust as (T1 & T2).
  split; [exact (T1 0.1 H) | exact (T2 0.1 H)].
Defined.

(** ** What the outputs depend on *)

Lemma snd_estimate_at_indep (pv mv p0 x0 x0' : num) (zs zs' : list num) (k : nat) :
  snd (estimate_at pv mv x0 p0 zs k) = snd (estimate_at pv mv x0' p0 zs' k).
Proof.
  induction k as [|k IH]; [reflexivity|].
  simpl estimate_at. unfold step. cbn [snd]. rewrite IH. reflexivity.
Qed.

Lemma estimate_at_ext (pv mv x0 p0 : num) (zs zs' : list num) (k : nat) :
  (forall j, (1 <= j <= k)%nat -> zs !! j = zs' !! j) ->
  estimate_at pv mv x0 p0 zs k = estimate_at pv mv x0 p0 zs' k.
Proof.
  induction k as [|k IH]; intros Hz; [reflexivity|].
  simpl. rewrite IH by (intros j Hj; apply Hz; lia).
  rewrite Hz by lia. reflexivity.
Qed.

Lemma lookup_eq_upto {A} (l1 l2 : list A) (n : nat) :
  length l1 = n -> length l2 = n ->
  (forall k, (k < n)%nat -> l1 !! k = l2 !! k) -> l1 = l2.
Proof.
  intros H1 H2 H. apply list_eq. intros i.
  destruct (decide (i < n)%nat) as [Hi|Hi]; [now apply H|].
  rewrite !lookup_ge_None_2 by lia. reflexivity.
Qed.

(** X4.  The error estimates do not depend on the data: two runs with the
    same step count, variances and initial error estimate return the same
    [error_estimate] sequence, whatever their measurements and initial
    state guesses. *)
Theorem X4_error_estimate_independent_of_data
    (n : Z) (pv mv p0 x0 x0' : num) (noise noise' : nat -> num) :
  (0 < n)%Z ->
  exists x xe z ee x' xe' z',
    kalman_filter_with n pv mv x0 p0 noise = inr (x, xe, z, ee) /\
    kalman_filter_with n pv mv x0' p0 noise' = inr (x', xe', z', ee).
Proof.
  intros Hn.
  destruct (kalman_filter_with_run n pv mv x0 p0 noise Hn)
    as (xe & ee & Hrun & _ & _ & Hle & _ & Hest).
  destruct (kalman_filter_with_run n pv mv x0' p0 noise' Hn)
    as (xe' & ee' & Hrun' & _ & _ & Hle' & _ & Hest').
  eexists _, xe, _, ee, _, xe', _. split; [exact Hrun|].
  rewrite Hrun'. do 3 f_equal.
  apply (lookup_eq_upto _ _ (Z.to_nat n)); try assumption.
  intros k Hk. destruct (Hest k Hk) as [_ ->]. destruct (Hest' k Hk) as [_ ->].
  f_equal. apply snd_estimate_at_indep.
Qed.

Lemma X4_error_estimate_independent_of_data_witness :
  exists x xe z ee x' xe' z',
    kalman_filter_with 4 (Fin 0) (Fin 0.1) (Fin 0) (Fin 1) golden_z
      = inr (x, xe, z, ee) /\
    kalman_filter_with 4 (Fin 0) (Fin 0.1) (Fin 5) (Fin 1)
      (sample [3; 3; 3; 3]) = inr (x', xe', z', ee).
Proof.
  exact (X4_error_estimate_independent_of_data 4 (Fin 0) (Fin 0.1) (Fin 1)
           (Fin 0) (Fin 5) golden_z (sample [3; 3; 3; 3]) eq_refl).
Defined.

(** X5.  The first measurement is never used: two runs whose noise samples
    agree at the indices [1, ..., N-1] return the same [x_estimate] and
    [error_estimate], whatever their samples at index 0. *)
Theorem X5_first_measurement_unused
    (n : Z) (pv mv x0 p0 : num) (noise noise' : nat -> num) :
  (0 < n)%Z ->
  (forall i, (1 <= i <= Z.to_nat n - 1)%nat -> noise i = noise' i) ->
  exists x xe z z' ee,
    kalman_filter_with n pv mv x0 p0 noise = inr (x, xe, z, ee) /\
    kalman_filter_with n pv mv x0 p0 noise' = inr (x, xe, z', ee).
Proof.
  intros Hn Hnoise.
  destruct (kalman_filter_with_run n pv mv x0 p0 noise Hn)
    as (xe & ee & Hrun & _ & Hlx & Hle & _ & Hest).
  destruct (kalman_filter_with_run n pv mv x0 p0 noise' Hn)
    as (xe' & ee' & Hrun' & _ & Hlx' & Hle' & _ & Hest').
  eexists _, xe, _, _, ee. split; [exact Hrun|].
  rewrite Hrun'.
  assert (Hext : forall k, (k < Z.to_nat n)%nat ->
            estimate_at pv mv x0 p0 (measurements noise (Z.to_nat n)) k =
            estimate_at pv mv x0 p0 (measurements noise' (Z.to_nat n)) k).
  { intros k Hk. apply estimate_at_ext. intros j Hj.
    rewrite !lookup_measurements by lia. rewrite Hnoise by lia. reflexivity. }
  assert (Ex : xe' = xe).
  { apply (lookup_eq_upto _ _ (Z.to_nat n)); try assumption.
    intros k Hk. destruct (Hest k Hk) as [-> _].
    destruct (Hest' k Hk) as [-> _]. now rewrite Hext. }
  assert (Ee : ee' = ee).
  { apply (lookup_eq_upto _ _ (Z.to_nat n)); try assumption.
    intros k Hk. destruct (Hest k Hk) as [_ ->].
    destruct (Hest' k Hk) as [_ ->]. now rewrite Hext. }
  rewrite Ex, Ee. reflexivity.
Qed.

Lemma X5_first_measurement_unused_witness :
  exists x xe z z' ee,
    kalman_filter_with 4 (Fin 0) (Fin 0.1) (Fin 0) (Fin 1) golden_z
      = inr (x, xe, z, ee) /\
    kalman_filter_with 4 (Fin 0) (Fin 0.1) (Fin 0) (Fin 1)
      (sample [100; 1; -1; 1 # 2]) = inr (x, xe, z', ee).
Proof.
  apply (X5_first_measurement_unused 4 (Fin 0) (Fin 0.1) (Fin 0) (Fin 1)
           golden_z (sample [100; 1; -1; 1 # 2]) eq_refl).
  intros i Hi. simpl in Hi.
  destruct i as [|[|[|[|i]]]]; try lia; reflexivity.
Defined.

(** ** NaN is absorbing *)

Lemma step_NaN_error (pv mv a zk : num) : step pv mv (a, NaN) zk = (NaN, NaN).
Proof.
  unfold step. cbn [fst snd].
  change (_calculate_model_variance NaN pv) with NaN.
  change (_calculate_kalman_gain NaN mv) with NaN.
  now rewrite x_estimate_NaN_gain.
Qed.

Lemma x_estimate_NaN_measurement (a g : num) : _calculate_x_estimate a g NaN = NaN.
Proof.
  unfold _calculate_x_estimate.
  change (nsub NaN a) with NaN.
  destruct g as [?|[]|], a as [?|[]|]; reflexivity.
Qed.

Lemma x_estimate_NaN_previous (g zk : num) : _calculate_x_estimate NaN g zk = NaN.
Proof. reflexivity. Qed.

(** X6.  A NaN error estimate is never recovered from: whatever the
    parameters, once [error_estimate[j]] is NaN, every later element of
    [error_estimate] and of [x_estimate] is NaN. *)
Theorem X6_NaN_error_estimate_absorbing
    (n : Z) (pv mv x0 p0 : num) (noise : nat -> num) :
  (0 < n)%Z ->
  exists x xe z ee,
    kalman_filter_with n pv mv x0 p0 noise = inr (x, xe, z, ee) /\
    forall j k, (j < k < Z.to_nat n)%nat ->
      ee !! j = Some NaN ->
      xe !! k = Some NaN /\ ee !! k = Some NaN.
Proof.
  intros Hn.
  destruct (kalman_filter_with_run n pv mv x0 p0 noise Hn)
    as (xe & ee & Hrun & _ & _ & _ & _ & Hest).
  eexists _, xe, _, ee. split; [exact Hrun|].
  intros j k Hjk Hj.
  destruct (Hest j ltac:(lia)) as [_ Hj']. rewrite Hj' in Hj.
  injection Hj as Hj.
  assert (H : forall d,
            estimate_at pv mv x0 p0 (measurements noise (Z.to_nat n))
              (S (j + d)) = (NaN, NaN)).
  { induction d as [|d IH].
    - rewrite Nat.add_0_r. simpl estimate_at.
      rewrite (surjective_pairing (estimate_at _ _ _ _ _ j)), Hj.
      apply step_NaN_error.
    - replace (j + S d)%nat with (S (j + d)) by lia.
      simpl estimate_at. simpl estimate_at in IH. rewrite IH.
      apply step_NaN_error. }
  destruct (Hest k ltac:(lia)) as [Hx Hp].
  replace k with (S (j + (k - j - 1))) in Hx, Hp by lia.
  rewrite H in Hx, Hp. simpl in Hx, Hp.
  replace (S (j + (k - j - 1))) with k in Hx, Hp by lia.
  now split.
Qed.

Lemma X6_NaN_error_estimate_absorbing_witness :
  exists x xe z ee,
    kalman_filter_with 5 (Fin 0) (Fin 0) (Fin 0) (Fin 1) golden_z
      = inr (x, xe, z, ee) /\
    ee !! 2%nat = Some NaN /\
    xe !! 4%nat = Some NaN /\ ee !! 4%nat = Some NaN.
Proof.
  destruct (X6_NaN_error_estimate_absorbing 5 (Fin 0) (Fin 0) (Fin 0) (Fin 1)
              golden_z eq_refl) as (x & xe & z & ee & Hrun & H).
  exists x, xe, z, ee. split; [exact Hrun|].
  assert (H2 : ee !! 2%nat = Some NaN).
  { vm_compute in Hrun. injection Hrun as _ _ _ <-. reflexivity. }
  split; [exact H2|].
  apply (H 2%nat 4%nat); [simpl; lia | exact H2].
Defined.

(** X7.  A NaN reaches every later state estimate: whatever the
    parameters, if the sample at an index [j >= 1] is NaN, or
    [x_estimate[j]] is NaN, then [x_estimate[k]] is NaN for every
    [k >= j]. *)
Theorem X7_NaN_poisons_estimates
    (n : Z) (pv mv x0 p0 : num) (noise : nat -> num) :
  (0 < n)%Z ->
  exists x xe z ee,
    kalman_filter_with n pv mv x0 p0 noise = inr (x, xe, z, ee) /\
    forall j k, (j <= k < Z.to_nat n)%nat ->
      ((1 <= j)%nat /\ noise j = NaN) \/ xe !! j = Some NaN ->
      xe !! k = Some NaN.
Proof.
  intros Hn.
  destruct (kalman_filter_with_run n pv mv x0 p0 noise Hn)
    as (xe & ee & Hrun & _ & _ & _ & _ & Hest).
  eexists _, xe, _, ee. split; [exact Hrun|].
  set (zs := measurements noise (Z.to_nat n)) in *.
  intros j k Hjk Hj.
  assert (Hxj : fst (estimate_at pv mv x0 p0 zs j) = NaN).
  { destruct Hj as [[Hj1 Hnan]|Hx].
    - destruct j as [|j]; [lia|]. simpl estimate_at. unfold step. cbn [fst].
      subst zs. rewrite lookup_measurements by lia. rewrite Hnan.
      apply x_estimate_NaN_measurement.
    - destruct (Hest j ltac:(lia)) as [Hx' _]. rewrite Hx' in Hx.
      now injection Hx. }
  assert (H : forall d, fst (estimate_at pv mv x0 p0 zs (j + d)) = NaN).
  { induction d as [|d IH].
    - now rewrite Nat.add_0_r.
    - replace (j + S d)%nat with (S (j + d)) by lia.
      simpl estimate_at. unfold step. cbn [fst]. rewrite IH. reflexivity. }
  destruct (Hest k ltac:(lia)) as [Hx _].
  replace k with (j + (k - j))%nat in Hx at 2 by lia.
  now rewrite H in Hx.
Qed.

Lemma X7_NaN_poisons_estimates_witness :
  exists x xe z ee,
    kalman_filter_with 4 (Fin 0) (Fin 0.1) (Fin 0) (Fin 1)
      (fun i => if (i =? 2)%nat then NaN else Fin 1) = inr (x, xe, z, ee) /\
    xe !! 3%nat = Some NaN.
Proof.
  destruct (X7_NaN_poisons_estimates 4 (Fin 0) (Fin 0.1) (Fin 0) (Fin 1)
              (fun i => if (i =? 2)%nat then NaN else Fin 1) eq_refl)
    as (x & xe & z & ee & Hrun & H).
  exists x, xe, z, ee. split; [exact Hrun|].
  apply (H 2%nat 3%nat); [simpl; lia|].
  left. split; [lia | reflexivity].
Defined.

(** ** The generated signals *)

(** X8.  For every positive step count the returned truth signal [x] is
    [N] zeros, and the returned measurement sequence [z] has [N] elements,
    the [k]-th being equal to the [k]-th noise sample: adding the zero
    truth signal changes no measurement, and the loop writes neither. *)
Theorem X8_generated_signals
    (n : Z) (pv mv x0 p0 : num) (noise : nat -> num) :
  (0 < n)%Z ->
  exists x xe z ee,
    kalman_filter_with n pv mv x0 p0 noise = inr (x, xe, z, ee) /\
    x = replicate (Z.to_nat n) (Fin 0) /\
    length z = Z.to_nat n /\
    forall k, (k < Z.to_nat n)%nat ->
      exists v, z !! k = Some v /\ num_eq v (noise k).
Proof.
  intros Hn.
  destruct (kalman_filter_with_run n pv mv x0 p0 noise Hn)
    as (xe & ee & Hrun & _).
  eexists _, xe, _, ee. split; [exact Hrun|].
  split; [reflexivity|]. split; [apply length_measurements|].
  intros k Hk. eexists. split; [now apply lookup_measurements|].
  destruct (noise k) as [v|[]|]; simpl; try reflexivity. ring.
Qed.

Lemma X8_generated_signals_witness :
  exists x xe z ee,
    kalman_filter_with 4 (Fin 0) (Fin 0.1) (Fin 0) (Fin 1) golden_z
      = inr (x, xe, z, ee) /\
    x = replicate (Z.to_nat 4) (Fin 0) /\
    length z = Z.to_nat 4.
Proof.
  destruct (X8_generated_signals 4 (Fin 0) (Fin 0.1) (Fin 0) (Fin 1)
              golden_z eq_refl) as (x & xe & z & ee & Hrun & Hx & Hz & _).
  exists x, xe, z, ee. now repeat split.
Defined.

(** ** Subscript accesses of the whole function *)

Lemma reads_initialised_iterations (m : nat) :
  forall (k : nat) (written : list (array * nat)),
    (1 <= k)%nat ->
    (arr_x_estimate, (k - 1)%nat) ∈ written ->
    (arr_error_estimate, (k - 1)%nat) ∈ written ->
    reads_initialised written (flat_map iteration_events (seq k m)) = true.
Proof.
  induction m as [|m IH]; intros k written Hk Hx He; [reflexivity|].
  cbn [seq flat_map iteration_events app reads_initialised is_output negb orb].
  rewrite !bool_decide_eq_true_2 by assumption.
  cbn [andb]. apply IH.
  - lia.
  - replace (S k - 1)%nat with k by lia. do 2 constructor.
  - replace (S k - 1)%nat with k by lia. constructor.
Qed.

(** X14.  Over the whole function, for every positive step count, each of
    [x_estimate] and [error_estimate] is written by subscript at the
    indices [0, 1, ..., N-1], in this order and once each; [x] and [z] are
    never written by subscript; and no element of the two output arrays is
    read before it has been written, so the zeros they are allocated with
    are never used. *)
Theorem X14_outputs_written_once_before_read
    (n : Z) (pv mv x0 p0 : num) (noise : nat -> num) :
  (0 < n)%Z ->
  exists tr,
    kalman_filter_trace n pv mv x0 p0 noise = inr tr /\
    writes_to arr_x_estimate tr = seq 0 (Z.to_nat n) /\
    writes_to arr_error_estimate tr = seq 0 (Z.to_nat n) /\
    writes_to arr_x tr = [] /\ writes_to arr_z tr = [] /\
    reads_initialised [] tr = true.
Proof.
  intros Hn.
  destruct (kalman_filter_with_run n pv mv x0 p0 noise Hn)
    as (xe & ee & _ & Htr & _).
  eexists. split; [exact Htr|].
  rewrite !writes_to_app, !writes_to_iterations.
  assert (E : seq 0 (Z.to_nat n) = 0%nat :: seq 1 (Z.to_nat n - 1)).
  { replace (Z.to_nat n) with (S (Z.to_nat n - 1)) at 1 by lia. reflexivity. }
  rewrite E. do 4 (split; [reflexivity|]).
  cbn [app reads_initialised].
  apply reads_initialised_iterations; [lia| |]; simpl.
  - do 2 constructor.
  - constructor.
Qed.

Lemma X14_outputs_written_once_before_read_witness :
  exists tr,
    kalman_filter_trace 4 (Fin 0) (Fin 0.1) (Fin 0) (Fin 1) golden_z = inr tr /\
    writes_to arr_x_estimate tr = [0; 1; 2; 3]%nat /\
    reads_initialised [] tr = true.
Proof.
  destruct (X14_outputs_written_once_before_read 4 (Fin 0) (Fin 0.1) (Fin 0)
              (Fin 1) golden_z eq_refl) as (tr & Htr & W & _ & _ & _ & R).
  exists tr. now repeat split.
Defined.

(** ** Plotting *)

Lemma sqrt_floor_nonneg (q : Q) :
  0 <= q -> exists s : Q, sqrt_floor (Fin q) = Fin s /\ 0 <= s.
Proof.
  intros Hq. unfold sqrt_floor.
  rewrite (proj2 (Qle_bool_iff 0 q) Hq).
  eexists. split; [reflexivity|].
  unfold Qle. simpl. pose proof (Z.sqrt_nonneg (Qnum q * Z.pos (Qden q))). lia.
Qed.

Section PlotFacts.

Variable np_sqrt : num -> num.
Hypothesis np_sqrt_nonneg :
  forall q : Q, 0 <= q -> exists s : Q, np_sqrt (Fin q) = Fin s /\ 0 <= s.

Lemma broadcast_same_length (f : num -> num -> num) (a b : list num) :
  length a = length b -> broadcast f a b = inr (zip_with f a b).
Proof. intros H. unfold broadcast. now rewrite decide_True. Qed.

Lemma fill_between_same_length (xs : list nat) (y1 y2 : list num) :
  length xs = length y1 -> length y1 = length y2 ->
  fill_between xs y1 y2 = inr (Band xs y1 y2).
Proof.
  intros H1 H2. unfold fill_between, broadcastable.
  rewrite H1, <- H2. simpl.
  rewrite Nat.eqb_refl, !orb_true_r. reflexivity.
Qed.

Lemma plot_everything_run (x x_hat z error_estimate : list num) :
  length error_estimate = length x_hat ->
  length x = length x_hat ->
  let sigma := map np_sqrt error_estimate in
  let two_sigma := map (nmul (Fin 2)) sigma in
  let three_sigma := map (nmul (Fin 3)) sigma in
  plot_everything np_sqrt x x_hat z error_estimate =
  inr (mkFigure
         [Line z;
          Band (range 0 (length x)) (zip_with nadd x_hat three_sigma)
               (zip_with nsub x_hat three_sigma);
          Band (range 0 (length x)) (zip_with nadd x_hat two_sigma)
               (zip_with nsub x_hat two_sigma);
          Band (range 0 (length x)) (zip_with nadd x_hat sigma)
               (zip_with nsub x_hat sigma);
          Line x_hat; Line x]
         (0%nat, length x) (- 0.2, 0.2)).
Proof.
  intros Hlen Hx. cbv zeta. unfold plot_everything.
  rewrite !broadcast_same_length by (rewrite ?length_map; lia).
  cbn [ebind].
  rewrite !fill_between_same_length
    by (unfold range; rewrite ?length_seq, !length_zip_with, !length_map; lia).
  reflexivity.
Qed.

(** The six band edges at one index, for a finite estimate and a finite
    non-negative error estimate. *)
Lemma band_edges_nested (a q : Q) :
  0 <= q ->
  exists s : Q,
    np_sqrt (Fin q) = Fin s /\
    let v := Fin a in
    let sg := np_sqrt (Fin q) in
    (v - Fin 3 * sg <= v - Fin 2 * sg)%num /\
    (v - Fin 2 * sg <= v - sg)%num /\
    (v - sg <= v)%num /\ (v <= v + sg)%num /\
    (v + sg <= v + Fin 2 * sg)%num /\
    (v + Fin 2 * sg <= v + Fin 3 * sg)%num.
Proof.
  intros Hq. destruct (np_sqrt_nonneg q Hq) as (s & Hs & Hs0).
  exists s. split; [exact Hs|]. cbv zeta. rewrite Hs.
  repeat split; apply nle_Fin; lra.
Qed.

End PlotFacts.

(** X15.  [plot_everything] on a truth, an estimate and an error-estimate
    array of the same length, with finite estimates and finite non-negative
    error estimates, draws in this order the measurements, the 3-sigma, 2-sigma
    and 1-sigma bands, the estimate and the truth.  Each band edge has the
    length of the estimate array, and at every index the bands are nested
    around the estimate:
    [lower3 <= lower2 <= lower1 <= x_hat <= upper1 <= upper2 <= upper3]. *)
Theorem X15_confidence_bands_nested
    (np_sqrt : num -> num) (x x_hat z error_estimate : list num) :
  (forall q : Q, 0 <= q -> exists s : Q, np_sqrt (Fin q) = Fin s /\ 0 <= s) ->
  length error_estimate = length x_hat ->
  length x = length x_hat ->
  (forall k v, x_hat !! k = Some v -> exists a : Q, v = Fin a) ->
  (forall k p, error_estimate !! k = Some p ->
               exists q : Q, p = Fin q /\ 0 <= q) ->
  exists u3 l3 u2 l2 u1 l1,
    plot_everything np_sqrt x x_hat z error_estimate =
      inr (mkFigure
             [Line z;
              Band (range 0 (length x)) u3 l3;
              Band (range 0 (length x)) u2 l2;
              Band (range 0 (length x)) u1 l1;
              Line x_hat; Line x]
             (0%nat, length x) (- 0.2, 0.2)) /\
    Forall (fun edge => length edge = length x_hat) [u3; l3; u2; l2; u1; l1] /\
    forall k v, x_hat !! k = Some v ->
      exists a3 b3 a2 b2 a1 b1,
        u3 !! k = Some a3 /\ l3 !! k = Some b3 /\
        u2 !! k = Some a2 /\ l2 !! k = Some b2 /\
        u1 !! k = Some a1 /\ l1 !! k = Some b1 /\
        (b3 <= b2)%num /\ (b2 <= b1)%num /\ (b1 <= v)%num /\
        (v <= a1)%num /\ (a1 <= a2)%num /\ (a2 <= a3)%num.
Proof.
  intros Hsqrt Hlen Hlx Hx Hp.
  eexists _, _, _, _, _, _.
  split; [apply plot_everything_run; assumption|].
  split.
  - repeat constructor;
      rewrite length_zip_with, !length_map; lia.
  - intros k v Hv.
    destruct (Hx k v Hv) as [a ->].
    destruct (lookup_lt_is_Some_2 error_estimate k) as [p Hpk].
    { rewrite Hlen. eapply lookup_lt_Some; exact Hv. }
    destruct (Hp k p Hpk) as (q & -> & Hq).
    destruct (band_edges_nested np_sqrt Hsqrt a q Hq)
      as (s & Hs & H1 & H2 & H3 & H4 & H5 & H6).
    eexists _, _, _, _, _, _.
    repeat (split;
      [rewrite lookup_zip_with, Hv, ?list_lookup_fmap, Hpk; reflexivity|]).
    repeat split; assumption.
Qed.

Lemma X15_confidence_bands_nested_witness :
  exists u3 l3 u2 l2 u1 l1,
    plot_everything sqrt_floor [Fin 0; Fin 0] [Fin 0; Fin 1] [Fin 0; Fin 1]
      [Fin 1; Fin (1 # 4)] =
      inr (mkFigure
             [Line [Fin 0; Fin 1];
              Band [0; 1]%nat u3 l3; Band [0; 1]%nat u2 l2;
              Band [0; 1]%nat u1 l1;
              Line [Fin 0; Fin 1]; Line [Fin 0; Fin 0]]
             (0%nat, 2%nat) (- 0.2, 0.2)) /\
    exists a3 b3, u3 !! 1%nat = Some a3 /\ l3 !! 1%nat = Some b3 /\
                  num_eq a3 (Fin 2.5) /\ num_eq b3 (Fin (-0.5)).
Proof.
  destruct (X15_confidence_bands_nested sqrt_floor
              [Fin 0; Fin 0] [Fin 0; Fin 1] [Fin 0; Fin 1]
              [Fin 1; Fin (1 # 4)] sqrt_floor_nonneg eq_refl eq_refl)
    as (u3 & l3 & u2 & l2 & u1 & l1 & Hrun & _ & _).
  - intros [|[|k]] v Hv; simpl in Hv; try discriminate;
      injection Hv as <-; eexists; reflexivity.
  - intros [|[|k]] p Hp; simpl in Hp; try discriminate;
      injection Hp as <-; eexists; (split; [reflexivity|]);
      vm_compute; discriminate.
  - exists u3, l3, u2, l2, u1, l1. split; [exact Hrun|].
    vm_compute in Hrun. injection Hrun as <- <- _ _ _ _.
    eexists _, _. repeat split; reflexivity.
Defined.

(** X16.  [plot_everything] raises [ValueError] when the estimate and the
    error-estimate arrays have different lengths, neither of them 1: the
    first band addition cannot be broadcast. *)
Theorem X16_plot_shape_mismatch
    (np_sqrt : num -> num) (x x_hat z error_estimate : list num) :
  length x_hat <> length error_estimate ->
  length x_hat <> 1%nat -> length error_estimate <> 1%nat ->
  plot_everything np_sqrt x x_hat z error_estimate = inl ValueError.
Proof.
  intros Hne H1 H2. unfold plot_everything, broadcast at 1.
  rewrite decide_False by (rewrite !length_map; exact Hne).
  destruct x_hat as [|u [|u' x_hat']]; simpl in *; try lia;
    destruct error_estimate as [|p [|p' ee']]; simpl in *; try lia;
    reflexivity.
Qed.

Lemma X16_plot_shape_mismatch_witness :
  plot_everything sqrt_floor [Fin 0; Fin 0] [Fin 0; Fin 1] [Fin 0; Fin 1]
    [Fin 1; Fin 1; Fin 1] = inl ValueError.
Proof.
  apply X16_plot_shape_mismatch; simpl; lia.
Defined.

(** X17.  [main] on noise samples of magnitude at most 1000 succeeds: it
    hands
    [plot_everything] the four sequences of [kalman_filter], and the figure
    has the three bands over the abscissae [0, ..., 499], every band edge
    with 500 points, the x-axis limits [(0, 500)], and the bands nested
    around the estimate at every index. *)
Theorem X17_main_draws_nested_bands
    (np_sqrt : num -> num) (f : nat -> Q) :
  (forall q : Q, 0 <= q -> exists s : Q, np_sqrt (Fin q) = Fin s /\ 0 <= s) ->
  (forall i, -1000 <= f i <= 1000) ->
  exists x x_hat z error_estimate u3 l3 u2 l2 u1 l1,
    kalman_filter (fun i => Fin (f i)) = inr (x, x_hat, z, error_estimate) /\
    main np_sqrt (fun i => Fin (f i)) =
      inr (mkFigure
             [Line z;
              Band (seq 0 500) u3 l3; Band (seq 0 500) u2 l2;
              Band (seq 0 500) u1 l1;
              Line x_hat; Line x]
             (0%nat, 500%nat) (- 0.2, 0.2)) /\
    Forall (fun edge => length edge = 500%nat) [u3; l3; u2; l2; u1; l1] /\
    forall k, (k < 500)%nat ->
      exists v a3 b3 a2 b2 a1 b1,
        x_hat !! k = Some v /\
        u3 !! k = Some a3 /\ l3 !! k = Some b3 /\
        u2 !! k = Some a2 /\ l2 !! k = Some b2 /\
        u1 !! k = Some a1 /\ l1 !! k = Some b1 /\
        (b3 <= b2)%num /\ (b2 <= b1)%num /\ (b1 <= v)%num /\
        (v <= a1)%num /\ (a1 <= a2)%num /\ (a2 <= a3)%num.
Proof.
  intros Hsqrt _.
  assert (H01 : 0 <= 0.1) by (vm_compute; discriminate).
  assert (H1 : 0 <= 1) by (vm_compute; discriminate).
  destruct (finite_run 0 0.1 0 1 f (Qle_refl 0) H01 H1 eq_refl 500 eq_refl)
    as (x & xe & z & ee & Hrun & Hlx & Hle & Hk).
  assert (Hlenx : length x = 500%nat).
  { destruct (kalman_filter_with_run 500 (Fin 0) (Fin 0.1) (Fin 0) (Fin 1)
                (fun i => Fin (f i)) eq_refl) as (xe' & ee' & Hrun' & _).
    rewrite Hrun in Hrun'.
    assert (Ex : x = replicate (Z.to_nat 500) (Fin 0)) by congruence.
    rewrite Ex, length_replicate. reflexivity. }
  assert (E500 : Z.to_nat 500 = 500%nat) by reflexivity.
  rewrite E500 in Hlx, Hle, Hk.
  eexists x, xe, z, ee, _, _, _, _, _, _.
  split; [exact Hrun|]. split.
  { unfold main, kalman_filter. rewrite Hrun. cbn [ebind].
    rewrite plot_everything_run by lia.
    rewrite Hlenx. reflexivity. }
  split.
  { repeat constructor; rewrite length_zip_with, !length_map; lia. }
  intros k Hlt. destruct (Hk k Hlt) as [Hx Hp].
  destruct (band_edges_nested np_sqrt Hsqrt (x_at 0 0.1 0 1 f k)
              (error_at 0 0.1 1 k))
    as (s & Hs & B1 & B2 & B3 & B4 & B5 & B6).
  { apply error_at_nonneg; (assumption || reflexivity || apply Qle_refl). }
  eexists _, _, _, _, _, _, _. split; [exact Hx|].
  repeat (split;
    [rewrite lookup_zip_with, Hx, ?list_lookup_fmap, Hp; reflexivity|]).
  repeat split; assumption.
Qed.

Lemma X17_main_draws_nested_bands_witness :
  exists x x_hat z error_estimate,
    kalman_filter (fun i => Fin (nth i [0; 1; -1; 1 # 2] 0))
      = inr (x, x_hat, z, error_estimate) /\
    exists fig,
      main sqrt_floor (fun i => Fin (nth i [0; 1; -1; 1 # 2] 0)) = inr fig /\
      xlim fig = (0%nat, 500%nat).
Proof.
  assert (Hb : forall i, -1000 <= nth i [0; 1; -1; 1 # 2] 0 <= 1000).
  { intros [|[|[|[|[|i]]]]]; split; vm_compute; discriminate. }
  destruct (X17_main_draws_nested_bands sqrt_floor
              (fun i => nth i [0; 1; -1; 1 # 2] 0) sqrt_floor_nonneg Hb)
    as (x & xh & z & ee & u3 & l3 & u2 & l2 & u1 & l1 & Hrun & Hmain & _).
  exists x, xh, z, ee. split; [exact Hrun|].
  eexists. split; [exact Hmain|]. reflexivity.
Defined.



